(** * Bundle installation: composing the File-Based Catalog

    A shallow embedding of [internal/olm/operator/bundle/install.go]
    (package [bundle] of the operator-sdk): the [setup] pipeline of
    [Install], [addBundleToIndexImage], [createFBC], [validateFBC] and
    [stringifyDecConfig], followed by the properties of the catalog
    composition that the specification states.

    Go values are modelled as follows.
    - [string] is [string]; a slice [[]T] is [list T] ([append] is [++],
      [len] is [length]); a pointer [*T] that may be [nil] is [option T];
      a map [map[string]string] is [gmap string string], and reading an
      absent key gives the empty string.
    - A function returning [(T, error)] returns [outcome T]: [Ok v] when
      the error is [nil], [Err msg] otherwise ([msg] is the text of the
      error), and [Panic p] when the Go runtime would panic (a nil pointer
      dereference, an index out of range).
    - A function returning only [error] returns [option error].
    - The mutable receiver [i *Install] is passed explicitly: [setup]
      maps the receiver before the call to the receiver after it.
    - Logging calls are left out; they have no effect on the results. *)

From Stdlib Require Import String Ascii List Bool Arith Lia.
From stdpp Require Import base option list strings gmap.

Local Open Scope string_scope.
Local Open Scope list_scope.

(** ** Errors, panics and outcomes *)

(** A Go [error], identified by its message. *)
Definition error : Type := string.

Inductive panic : Type :=
| NilPointerDereference
| IndexOutOfRange.

Inductive outcome (A : Type) : Type :=
| Ok (a : A)
| Err (e : error)
| Panic (p : panic).

Arguments Ok {A} a.
Arguments Err {A} e.
Arguments Panic {A} p.

#[global] Instance outcome_ret : MRet outcome := λ A a, Ok a.

#[global] Instance outcome_bind : MBind outcome := λ A B f m,
  match m with
  | Ok a => f a
  | Err e => Err e
  | Panic p => Panic p
  end.

(** [if err != nil { return err }] for a call that returns only an error. *)
Definition check (r : option error) : outcome unit :=
  match r with
  | None => Ok tt
  | Some e => Err e
  end.

(** [s[n]] on a slice: the Go runtime panics when [n] is out of range. *)
Definition index {A : Type} (s : list A) (n : nat) : outcome A :=
  match s !! n with
  | Some x => Ok x
  | None => Panic IndexOutOfRange
  end.

(** [m[k]] on a [map[string]string]: the zero value when [k] is absent. *)
Definition map_get (m : gmap string string) (k : string) : string :=
  default "" (m !! k).

(** [_, ok := m[k]]. *)
Definition map_has (m : gmap string string) (k : string) : bool :=
  bool_decide (is_Some (m !! k)).

(** [strings.Split(s, sep)] for a separator of one character, which is how
    [setup] calls it (on [","] and on ["."]): the substrings of [s] between
    the occurrences of [sep]; one (empty) substring when [s] is empty. *)
Fixpoint strings_Split (s : string) (sep : ascii) : list string :=
  match s with
  | EmptyString => [EmptyString]
  | String c rest =>
      if Ascii.eqb c sep then EmptyString :: strings_Split rest sep
      else match strings_Split rest sep with
           | [] => [String c EmptyString]
           | w :: ws => String c w :: ws
           end
  end.

(** ** The declarative configuration

    The record types of [declarativeconfig] are declared in
    operator-registry ([alpha/declcfg]); they are given here with the
    fields that package declares.  A byte slice is [option (list byte)],
    so that a [nil] slice and an empty one differ as they do for
    [reflect.DeepEqual]. *)

Module Icon.
Record t : Type := mk {
  Data : option (list Byte.byte);
  MediaType : string
}.
End Icon.

Module Package.
Record t : Type := mk {
  Schema : string;
  Name : string;
  DefaultChannel : string;
  Icon : option Icon.t;
  Description : string
}.
End Package.

Module ChannelEntry.
Record t : Type := mk {
  Name : string;
  Replaces : string;
  Skips : list string;
  SkipRange : string
}.
End ChannelEntry.

Module Channel.
Record t : Type := mk {
  Schema : string;
  Name : string;
  Package : string;
  Entries : list ChannelEntry.t
}.
End Channel.

Module Bundle.
Record t : Type := mk {
  Schema : string;
  Name : string;
  Package : string;
  Image : string;
  Properties : list (string * string);
  RelatedImages : list (string * string);
  CsvJSON : string;
  Objects : list string
}.
End Bundle.

Module Meta.
Record t : Type := mk {
  Schema : string;
  Package : string;
  Blob : string
}.
End Meta.

Module DeclarativeConfig.
Record t : Type := mk {
  Packages : list Package.t;
  Channels : list Channel.t;
  Bundles : list Bundle.t;
  Others : list Meta.t
}.
End DeclarativeConfig.

#[global] Instance byte_eq_dec : EqDecision Byte.byte := Byte.byte_eq_dec.
#[global] Instance Icon_eq_dec : EqDecision Icon.t.
Proof. solve_decision. Defined.
#[global] Instance Package_eq_dec : EqDecision Package.t.
Proof. solve_decision. Defined.

(** [reflect.DeepEqual] on two [Package] values: equality of the records,
    field by field, through the [Icon] pointer. *)
Definition reflect_DeepEqual (p q : Package.t) : bool := bool_decide (p = q).

(** ** The installer's state

    [Install] embeds [*registry.IndexImageCatalogCreator] and
    [*registry.OperatorInstaller] and holds the [*operator.Configuration].
    Those types are declared in other packages of the repository; they are
    given here with the fields that [install.go] reads or writes. *)

Module InstallMode.
Record t : Type := mk {
  InstallModeType : string;
  TargetNamespaces : list string
}.
End InstallMode.

Module ClusterServiceVersion.
(** [v1alpha1.ClusterServiceVersion]: its name and the install modes of
    its spec, each with its [Supported] flag. *)
Record t : Type := mk {
  Name : string;
  InstallModes : list (string * bool)
}.
End ClusterServiceVersion.

Module IndexImageCatalogCreator.
Record t : Type := mk {
  SkipTLS : bool;
  SkipTLSVerify : bool;
  UseHTTP : bool;
  IndexImage : string;
  BundleAddMode : string;
  PackageName : string;
  BundleImage : string;
  FBCcontent : string;
  FBCdir : string;
  FBCfile : string
}.
End IndexImageCatalogCreator.

Module OperatorInstaller.
Record t : Type := mk {
  InstallMode : InstallMode.t;
  PackageName : string;
  CatalogSourceName : string;
  StartingCSV : string;
  SupportedInstallModes : gset string;
  Channel : string
}.
End OperatorInstaller.

Module Configuration.
Record t : Type := mk {
  Namespace : string
}.
End Configuration.

Module Install.
Record t : Type := mk {
  BundleImage : string;
  Creator : IndexImageCatalogCreator.t;
  Installer : OperatorInstaller.t;
  cfg : Configuration.t
}.
End Install.

Module FBCContext.
Record t : Type := mk {
  BundleImage : string;
  Package : string;
  DefaultChannel : string;
  FBCName : string;
  FBCDirPath : string;
  FBCDirName : string;
  ChannelSchema : string;
  ChannelName : string;
  ChannelEntries : list ChannelEntry.t;
  (** [io.Reader], [nil] when unset; a reader is the text it yields. *)
  DescriptionReader : option string
}.
End FBCContext.

(** ** External collaborators

    Everything [install.go] calls outside its own file: the image
    registry, operator-registry's actions and the helpers of the other
    packages of the repository.  The development is parametric in them. *)

Class Collaborators : Type := {
  (** [registry.DefaultIndexImage] *)
  DefaultIndexImage : string;
  (** [containertools.DbLocationLabel], [containertools.ConfigsLocationLabel] *)
  DbLocationLabel : string;
  ConfigsLocationLabel : string;
  (** [registrybundle.ChannelsLabel], [registrybundle.PackageLabel] *)
  ChannelsLabel : string;
  PackageLabel : string;
  (** [BundleAddMode.Validate()] *)
  BundleAddMode_Validate : string → option error;
  (** [operator.LoadBundle(ctx, image, skipTLSVerify, useHTTP)]: the labels
      of the bundle image and the CSV of the bundle. *)
  LoadBundle :
    string → bool → bool → outcome (gmap string string * ClusterServiceVersion.t);
  (** [InstallMode.CheckCompatibility(csv, namespace)] *)
  CheckCompatibility :
    InstallMode.t → ClusterServiceVersion.t → string → option error;
  (** [registryutil.GetImageLabels(ctx, nil, image, false)] *)
  GetImageLabels : string → outcome (gmap string string);
  (** [action.Render{Refs: refs}.Run(ctx)] *)
  Render_Run : list string → outcome DeclarativeConfig.t;
  (** [action.Init{Package, DefaultChannel, DescriptionReader}.Run()] *)
  Init_Run : string → string → option string → outcome Package.t;
  (** [declarativeconfig.ConvertToModel(cfg)] and [Model.Validate()] *)
  Model : Type;
  ConvertToModel : DeclarativeConfig.t → outcome Model;
  Model_Validate : Model → option error;
  (** [declarativeconfig.WriteJSON(cfg, &buf)]: the bytes written to the
      buffer and the error returned. *)
  WriteJSON : DeclarativeConfig.t → string * option error;
  (** [filepath.Join] *)
  filepath_Join : list string → string;
  (** [operator.CatalogNameForPackage], [operator.GetSupportedInstallModes] *)
  CatalogNameForPackage : string → string;
  GetSupportedInstallModes : list (string * bool) → gset string;
  (** [OperatorInstaller.InstallOperator(ctx)] on the receiver after [setup] *)
  InstallOperator : Install.t → outcome ClusterServiceVersion.t
}.

(** The local variables of [setup] once the bundle and the labels of the
    index image are loaded (lines 104-122). *)
Module Locals.
Record t : Type := mk {
  labels : gmap string string;
  csv : ClusterServiceVersion.t;
  directoryName : string;
  fileName : string;
  catalogLabels : gmap string string
}.
End Locals.

(** [i.UseHTTP = b] *)
Definition set_UseHTTP (b : bool) (i : Install.t) : Install.t :=
  let c := Install.Creator i in
  {| Install.BundleImage := Install.BundleImage i;
     Install.Creator := {|
       IndexImageCatalogCreator.SkipTLS := IndexImageCatalogCreator.SkipTLS c;
       IndexImageCatalogCreator.SkipTLSVerify :=
         IndexImageCatalogCreator.SkipTLSVerify c;
       IndexImageCatalogCreator.UseHTTP := b;
       IndexImageCatalogCreator.IndexImage := IndexImageCatalogCreator.IndexImage c;
       IndexImageCatalogCreator.BundleAddMode :=
         IndexImageCatalogCreator.BundleAddMode c;
       IndexImageCatalogCreator.PackageName :=
         IndexImageCatalogCreator.PackageName c;
       IndexImageCatalogCreator.BundleImage :=
         IndexImageCatalogCreator.BundleImage c;
       IndexImageCatalogCreator.FBCcontent := IndexImageCatalogCreator.FBCcontent c;
       IndexImageCatalogCreator.FBCdir := IndexImageCatalogCreator.FBCdir c;
       IndexImageCatalogCreator.FBCfile := IndexImageCatalogCreator.FBCfile c
     |};
     Install.Installer := Install.Installer i;
     Install.cfg := Install.cfg i |}.

Section Bundle.

Context `{Collaborators}.

(** *** [addBundleToIndexImage] *)

(** The loop of lines 240-245: [packageNotPresent] after ranging over the
    packages of the index, leaving at the first one that is deeply equal to
    [p0]. *)
Fixpoint rangePackages (pkgs : list Package.t) (p0 : Package.t)
    (packageNotPresent : bool) : bool :=
  match pkgs with
  | [] => packageNotPresent
  | packageName :: rest =>
      if reflect_DeepEqual packageName p0 then false
      else rangePackages rest p0 packageNotPresent
  end.

(** Lines 237-246: is the package blob of the bundle absent from the image? *)
Definition packageNotPresent
    (imageDeclConfig bundleDeclConfig : DeclarativeConfig.t) : bool :=
  if (0 <? length (DeclarativeConfig.Packages bundleDeclConfig))%nat then
    match DeclarativeConfig.Packages bundleDeclConfig with
    | p0 :: _ =>
        rangePackages (DeclarativeConfig.Packages imageDeclConfig) p0 true
    | [] => true
    end
  else true.

(** Lines 232-262: what [addBundleToIndexImage] does with the two rendered
    configurations. The first test, [len(Bundles) < 0], returns
    [nil, err] with [err] equal to [nil]. *)
Definition mergeRendered
    (imageDeclConfig bundleDeclConfig : DeclarativeConfig.t)
    : outcome (option DeclarativeConfig.t) :=
  let src := bundleDeclConfig in
  if (length (DeclarativeConfig.Bundles src) <? 0)%nat then Ok None
  else
    if packageNotPresent imageDeclConfig src
       && (0 <? length (DeclarativeConfig.Bundles src))%nat
       && (0 <? length (DeclarativeConfig.Channels src))%nat
    then
      p0 ← index (DeclarativeConfig.Packages src) 0;
      let packages := DeclarativeConfig.Packages imageDeclConfig ++ [p0] in
      bundles ←
        (if (0 <? length (DeclarativeConfig.Bundles src))%nat then
           b0 ← index (DeclarativeConfig.Bundles src) 0;
           Ok (DeclarativeConfig.Bundles imageDeclConfig ++ [b0])
         else Ok (DeclarativeConfig.Bundles imageDeclConfig));
      channels ←
        (if (0 <? length (DeclarativeConfig.Channels src))%nat then
           c0 ← index (DeclarativeConfig.Channels src) 0;
           Ok (DeclarativeConfig.Channels imageDeclConfig ++ [c0])
         else Ok (DeclarativeConfig.Channels imageDeclConfig));
      others ←
        (if (0 <? length (DeclarativeConfig.Others src))%nat then
           o0 ← index (DeclarativeConfig.Others src) 0;
           Ok (DeclarativeConfig.Others imageDeclConfig ++ [o0])
         else Ok (DeclarativeConfig.Others imageDeclConfig));
      Ok (Some (DeclarativeConfig.mk packages channels bundles others))
    else Ok (Some imageDeclConfig).

(** [addBundleToIndexImage] adds the bundle to an existing index image if
    the bundle is not already present in the index image: it renders the
    index image, then the bundle image (lines 210-230), and merges. *)
Definition addBundleToIndexImage (indexImage bundleImage : string)
    : outcome (option DeclarativeConfig.t) :=
  imageDeclConfig ← Render_Run [indexImage];
  bundleDeclConfig ← Render_Run [bundleImage];
  mergeRendered imageDeclConfig bundleDeclConfig.

(** *** [createFBC] *)

(** [createFBC] generates an FBC by creating bundle, package and channel
    blobs. What the render gave as [Others] stays in the result. *)
Definition createFBC (f : FBCContext.t) : outcome (option DeclarativeConfig.t) :=
  declcfg ← Render_Run [FBCContext.BundleImage f];
  if (length (DeclarativeConfig.Bundles declcfg) <? 0)%nat then Ok None
  else
    bundles ←
      (if (length (DeclarativeConfig.Bundles declcfg) =? 1)%nat then
         b0 ← index (DeclarativeConfig.Bundles declcfg) 0;
         Ok [b0]
       else Err "error in expected length of bundles");
    declcfgpackage ←
      Init_Run (FBCContext.Package f) (FBCContext.ChannelName f)
               (FBCContext.DescriptionReader f);
    let channel :=
      Channel.mk (FBCContext.ChannelSchema f) (FBCContext.ChannelName f)
                 (FBCContext.Package f) (FBCContext.ChannelEntries f) in
    Ok (Some (DeclarativeConfig.mk [declcfgpackage] [channel] bundles
                (DeclarativeConfig.Others declcfg))).

(** *** [stringifyDecConfig] and [validateFBC] *)

(** [stringifyDecConfig] writes the generated declarative config to a
    string; [*declcfg] panics on a [nil] pointer. *)
Definition stringifyDecConfig (declcfg : option DeclarativeConfig.t)
    : outcome string :=
  match declcfg with
  | None => Panic NilPointerDereference
  | Some cfg =>
      match WriteJSON cfg with
      | (_, Some err) => Err err
      | (buf, None) => Ok buf
      end
  end.

(** [validateFBC] converts the generated declarative config to a model and
    validates it; [*declcfg] panics on a [nil] pointer. *)
Definition validateFBC (declcfg : option DeclarativeConfig.t) : outcome unit :=
  match declcfg with
  | None => Panic NilPointerDereference
  | Some cfg =>
      FBCmodel ← ConvertToModel cfg;
      check (Model_Validate FBCmodel)
  end.

(** *** [setup] and [Run]

    [setup] is given in three parts, in the order of the source: the
    loading of the bundle and of the labels (lines 91-122), the composition
    of the declarative config (lines 124-170), and its validation and
    hand-over to the installer (lines 172-204). *)

(** Lines 91-122. The receiver is returned as the function leaves it:
    [UseHTTP] is set before anything can fail after it. *)
Definition setup_load (i : Install.t) : Install.t * outcome Locals.t :=
  let c := Install.Creator i in
  match (if negb (bool_decide (IndexImageCatalogCreator.BundleAddMode c = ""))
         then BundleAddMode_Validate (IndexImageCatalogCreator.BundleAddMode c)
         else None) with
  | Some err => (i, Err err)
  | None =>
      let i := if IndexImageCatalogCreator.SkipTLS c then set_UseHTTP true i else i in
      let c := Install.Creator i in
      (i,
       '(labels, csv) ← LoadBundle (Install.BundleImage i)
                          (IndexImageCatalogCreator.SkipTLSVerify c)
                          (IndexImageCatalogCreator.UseHTTP c);
       check (CheckCompatibility (OperatorInstaller.InstallMode (Install.Installer i))
                csv (Configuration.Namespace (Install.cfg i)));;
       name0 ← index (strings_Split (ClusterServiceVersion.Name csv) ".") 0;
       let directoryName := filepath_Join ["/tmp"; name0 +:+ "-index"] in
       let fileName := filepath_Join [directoryName; "testFBC"] in
       catalogLabels ←
         match GetImageLabels (IndexImageCatalogCreator.IndexImage c) with
         | Ok m => Ok m
         | Err err => Err ("get index image labels: " +:+ err)
         | Panic p => Panic p
         end;
       Ok (Locals.mk labels csv directoryName fileName catalogLabels))
  end.

(** Lines 144-160: the [FBCContext] that [setup] fills in for the channel
    [bundleChannel], with the one entry of the channel blob. *)
Definition setup_FBCContext (i : Install.t) (l : Locals.t)
    (bundleChannel : string) : FBCContext.t := {|
  FBCContext.BundleImage := Install.BundleImage i;
  FBCContext.Package := map_get (Locals.labels l) PackageLabel;
  FBCContext.DefaultChannel := bundleChannel;
  FBCContext.FBCName := Locals.fileName l;
  FBCContext.FBCDirPath := "";
  FBCContext.FBCDirName := Locals.directoryName l;
  FBCContext.ChannelSchema := "olm.channel";
  FBCContext.ChannelName := bundleChannel;
  FBCContext.ChannelEntries :=
    [ChannelEntry.mk (ClusterServiceVersion.Name (Locals.csv l)) "" [] ""];
  FBCContext.DescriptionReader := None
|}.

(** Lines 124-170: [declcfg] starts as [nil]; an index image with one of
    the two labels that is not the default one is rendered and merged; the
    default index image gets a File-Based Catalog of its own. *)
Definition setup_declcfg (i : Install.t) (l : Locals.t)
    : outcome (option DeclarativeConfig.t) :=
  let indexImage := IndexImageCatalogCreator.IndexImage (Install.Creator i) in
  let declcfg : option DeclarativeConfig.t := None in
  let hasDBLabel := map_has (Locals.catalogLabels l) DbLocationLabel in
  let hasFBCLabel := map_has (Locals.catalogLabels l) ConfigsLocationLabel in
  declcfg ←
    (if hasDBLabel || hasFBCLabel then
       if negb (bool_decide (indexImage = DefaultIndexImage)) then
         addBundleToIndexImage indexImage (Install.BundleImage i)
       else Ok declcfg
     else Ok declcfg);
  if bool_decide (indexImage = DefaultIndexImage) then
    bundleChannel ←
      index (strings_Split (map_get (Locals.labels l) ChannelsLabel) ",") 0;
    let f := setup_FBCContext i l bundleChannel in
    createFBC f
  else Ok declcfg.

(** Lines 172-188: validation, conversion to a string, and the test that
    the string is not empty. *)
Definition setup_content (declcfg : option DeclarativeConfig.t) : outcome string :=
  validateFBC declcfg;;
  content ← stringifyDecConfig declcfg;
  if bool_decide (content = "") then
    Err "File-Based Catalog contents cannot be empty"
  else Ok content.

(** Lines 172-204. The fields of the installer and of the catalog creator
    are written only when nothing has failed. *)
Definition setup_finish (i : Install.t) (l : Locals.t)
    (declcfg : option DeclarativeConfig.t) : Install.t * outcome unit :=
  match (content ← setup_content declcfg;
         channel ←
           index (strings_Split (map_get (Locals.labels l) ChannelsLabel) ",") 0;
         Ok (content, channel)) with
  | Ok (content, channel) =>
      let packageName := map_get (Locals.labels l) PackageLabel in
      let o := Install.Installer i in
      let c := Install.Creator i in
      ({| Install.BundleImage := Install.BundleImage i;
          Install.Creator := {|
            IndexImageCatalogCreator.SkipTLS := IndexImageCatalogCreator.SkipTLS c;
            IndexImageCatalogCreator.SkipTLSVerify :=
              IndexImageCatalogCreator.SkipTLSVerify c;
            IndexImageCatalogCreator.UseHTTP := IndexImageCatalogCreator.UseHTTP c;
            IndexImageCatalogCreator.IndexImage :=
              IndexImageCatalogCreator.IndexImage c;
            IndexImageCatalogCreator.BundleAddMode :=
              IndexImageCatalogCreator.BundleAddMode c;
            IndexImageCatalogCreator.PackageName := packageName;
            IndexImageCatalogCreator.BundleImage := Install.BundleImage i;
            IndexImageCatalogCreator.FBCcontent := content;
            IndexImageCatalogCreator.FBCdir := Locals.directoryName l;
            IndexImageCatalogCreator.FBCfile := Locals.fileName l
          |};
          Install.Installer := {|
            OperatorInstaller.InstallMode := OperatorInstaller.InstallMode o;
            OperatorInstaller.PackageName := packageName;
            OperatorInstaller.CatalogSourceName := CatalogNameForPackage packageName;
            OperatorInstaller.StartingCSV := ClusterServiceVersion.Name (Locals.csv l);
            OperatorInstaller.SupportedInstallModes :=
              GetSupportedInstallModes
                (ClusterServiceVersion.InstallModes (Locals.csv l));
            OperatorInstaller.Channel := channel
          |};
          Install.cfg := Install.cfg i |},
       Ok tt)
  | Err err => (i, Err err)
  | Panic p => (i, Panic p)
  end.

Definition setup (i : Install.t) : Install.t * outcome unit :=
  match setup_load i with
  | (i, Ok l) =>
      match setup_declcfg i l with
      | Ok declcfg => setup_finish i l declcfg
      | Err err => (i, Err err)
      | Panic p => (i, Panic p)
      end
  | (i, Err err) => (i, Err err)
  | (i, Panic p) => (i, Panic p)
  end.

(** [Run]: the operator is installed only when [setup] returned no error. *)
Definition Run (i : Install.t) : outcome ClusterServiceVersion.t :=
  match setup i with
  | (i, Ok _) => InstallOperator i
  | (_, Err err) => Err err
  | (_, Panic p) => Panic p
  end.

End Bundle.

(** ** A concrete environment

    Collaborators over two tables, the labels and the rendered content of
    each known image, with the label keys and the default index image of
    the libraries the source imports.  It serves the examples below. *)

Module Demo.

Definition defaultIndexImage : string := "quay.io/operator-framework/opm:latest".
Definition dbLocationLabel : string :=
  "operators.operatorframework.io.index.database.v1".
Definition configsLocationLabel : string :=
  "operators.operatorframework.io.index.configs.v1".
Definition channelsLabel : string :=
  "operators.operatorframework.io.bundle.channels.v1".
Definition packageLabel : string :=
  "operators.operatorframework.io.bundle.package.v1".

Definition bundleRef : string := "example.com/foo-bundle:v1.0.0".
Definition indexRef : string := "example.com/catalog:latest".

Definition csvFoo : ClusterServiceVersion.t :=
  ClusterServiceVersion.mk "foo.v1.0.0" [("AllNamespaces", true)].

Definition bundleLabels : gmap string string :=
  {[ packageLabel := "foo"; channelsLabel := "stable" ]}.

Definition pkgFoo : Package.t := Package.mk "olm.package" "foo" "stable" None "".
Definition pkgFooDescribed : Package.t :=
  Package.mk "olm.package" "foo" "stable" None "The foo operator".
Definition pkgBar : Package.t := Package.mk "olm.package" "bar" "alpha" None "".

Definition entryFoo : ChannelEntry.t := ChannelEntry.mk "foo.v1.0.0" "" [] "".
Definition chanFoo : Channel.t := Channel.mk "olm.channel" "stable" "foo" [entryFoo].
Definition chanBar : Channel.t :=
  Channel.mk "olm.channel" "alpha" "bar" [ChannelEntry.mk "bar.v0.1.0" "" [] ""].

Definition bundleFoo : Bundle.t :=
  Bundle.mk "olm.bundle" "foo.v1.0.0" "foo" bundleRef [] [] "" [].
Definition bundleFoo2 : Bundle.t :=
  Bundle.mk "olm.bundle" "foo.v2.0.0" "foo" "example.com/foo-bundle:v2.0.0"
            [] [] "" [].
Definition bundleBar : Bundle.t :=
  Bundle.mk "olm.bundle" "bar.v0.1.0" "bar" "example.com/bar-bundle:v0.1.0"
            [] [] "" [].

Definition metaFoo : Meta.t := Meta.mk "olm.deprecations" "foo" "{}".

Definition emptyCfg : DeclarativeConfig.t := DeclarativeConfig.mk [] [] [] [].
(** An index with the package [bar]. *)
Definition barCatalog : DeclarativeConfig.t :=
  DeclarativeConfig.mk [pkgBar] [chanBar] [bundleBar] [].
(** An index with [bar] and a package named [foo] that has a description. *)
Definition describedCatalog : DeclarativeConfig.t :=
  DeclarativeConfig.mk [pkgBar; pkgFooDescribed] [chanBar] [bundleBar] [].
(** Renders of a bundle image: complete, with only the bundle, without a
    channel, without a package, with two bundles, without a bundle. *)
Definition fooRender : DeclarativeConfig.t :=
  DeclarativeConfig.mk [pkgFoo] [chanFoo] [bundleFoo] [metaFoo].
Definition fooBundleOnly : DeclarativeConfig.t :=
  DeclarativeConfig.mk [] [] [bundleFoo] [].
Definition fooNoChannel : DeclarativeConfig.t :=
  DeclarativeConfig.mk [pkgFoo] [] [bundleFoo] [].
Definition fooNoPackage : DeclarativeConfig.t :=
  DeclarativeConfig.mk [] [chanFoo] [bundleFoo] [].
Definition fooTwoBundles : DeclarativeConfig.t :=
  DeclarativeConfig.mk [pkgFoo] [chanFoo] [bundleFoo; bundleFoo2] [].
Definition fooNoBundle : DeclarativeConfig.t :=
  DeclarativeConfig.mk [pkgFoo] [chanFoo] [] [].

(** One line per record, and no text for an empty configuration. *)
Definition writeJSON (cfg : DeclarativeConfig.t) : string * option error :=
  (String.concat ""
     (map (λ p, "{schema:" +:+ Package.Schema p +:+ ",name:" +:+ Package.Name p +:+ "}")
          (DeclarativeConfig.Packages cfg)
      ++ map (λ c, "{schema:" +:+ Channel.Schema c +:+ ",name:" +:+ Channel.Name c +:+ "}")
             (DeclarativeConfig.Channels cfg)
      ++ map (λ b, "{schema:" +:+ Bundle.Schema b +:+ ",name:" +:+ Bundle.Name b +:+ "}")
             (DeclarativeConfig.Bundles cfg)
      ++ map (λ o, "{schema:" +:+ Meta.Schema o +:+ "}")
             (DeclarativeConfig.Others cfg)),
   None).

Definition env (imageLabels : gmap string (gmap string string))
    (images : gmap string DeclarativeConfig.t) : Collaborators := {|
  DefaultIndexImage := defaultIndexImage;
  DbLocationLabel := dbLocationLabel;
  ConfigsLocationLabel := configsLocationLabel;
  ChannelsLabel := channelsLabel;
  PackageLabel := packageLabel;
  BundleAddMode_Validate := λ _, None;
  LoadBundle := λ image _ _,
    if bool_decide (image = bundleRef) then Ok (bundleLabels, csvFoo)
    else Err "load bundle: image not found";
  CheckCompatibility := λ _ _ _, None;
  GetImageLabels := λ image,
    match imageLabels !! image with
    | Some m => Ok m
    | None => Err "image not found"
    end;
  Render_Run := λ refs,
    match refs with
    | [ref] =>
        match images !! ref with
        | Some cfg => Ok cfg
        | None => Err "render: image not found"
        end
    | _ => Err "render: one reference expected"
    end;
  Init_Run := λ pkg channel reader,
    Ok (Package.mk "olm.package" pkg channel None (default "" reader));
  Model := DeclarativeConfig.t;
  ConvertToModel := λ cfg, Ok cfg;
  Model_Validate := λ _, None;
  WriteJSON := writeJSON;
  filepath_Join := String.concat "/";
  CatalogNameForPackage := λ pkg, pkg +:+ "-catalog";
  GetSupportedInstallModes := λ modes,
    list_to_set (map fst (filter (λ m, snd m = true) modes));
  InstallOperator := λ i,
    Ok (ClusterServiceVersion.mk
          (OperatorInstaller.StartingCSV (Install.Installer i)) [])
|}.

Definition install (indexImage : string) : Install.t := {|
  Install.BundleImage := bundleRef;
  Install.Creator :=
    IndexImageCatalogCreator.mk false false false indexImage "" "" "" "" "" "";
  Install.Installer :=
    OperatorInstaller.mk (InstallMode.mk "AllNamespaces" []) "" "" "" ∅ "";
  Install.cfg := Configuration.mk "default"
|}.

Definition locals (catalogLabels : gmap string string) : Locals.t :=
  Locals.mk bundleLabels csvFoo "/tmp/foo-index" "/tmp/foo-index/testFBC"
            catalogLabels.

(** An index image with the configs label that holds [bar], and a
    complete render of the bundle. *)
Definition mergeEnv : Collaborators :=
  env {[ indexRef := {[ configsLocationLabel := "/configs" ]} ]}
      {[ indexRef := barCatalog; bundleRef := fooRender ]}.
(** The default index image, without labels. *)
Definition minimalEnv : Collaborators :=
  env {[ defaultIndexImage := ∅ ]} {[ bundleRef := fooBundleOnly ]}.
(** The default index image, with the configs label. *)
Definition labelledDefaultEnv : Collaborators :=
  env {[ defaultIndexImage := {[ configsLocationLabel := "/configs" ]} ]}
      {[ defaultIndexImage := barCatalog; bundleRef := fooBundleOnly ]}.
(** An index image without labels. *)
Definition unlabelledEnv : Collaborators :=
  env {[ indexRef := ∅ ]} {[ indexRef := barCatalog; bundleRef := fooRender ]}.
(** Bundle images that render to two bundles, to none, to no package. *)
Definition twoBundlesEnv : Collaborators :=
  env {[ indexRef := {[ dbLocationLabel := "/database/index.db" ]};
         defaultIndexImage := ∅ ]}
      {[ indexRef := barCatalog; bundleRef := fooTwoBundles ]}.
Definition noBundleEnv : Collaborators :=
  env {[ indexRef := {[ dbLocationLabel := "/database/index.db" ]};
         defaultIndexImage := ∅ ]}
      {[ indexRef := barCatalog; bundleRef := fooNoBundle ]}.
Definition noPackageEnv : Collaborators :=
  env {[ indexRef := {[ dbLocationLabel := "/database/index.db" ]} ]}
      {[ indexRef := barCatalog; bundleRef := fooNoPackage ]}.

(** The index [bar] after the merge of the complete render of [foo]. *)
Definition barFooCatalog : DeclarativeConfig.t :=
  DeclarativeConfig.mk [pkgBar; pkgFoo] [chanBar; chanFoo]
                       [bundleBar; bundleFoo] [metaFoo].

(** Collaborators that can refuse: an add mode other than [replaces] and
    [semver], an install mode that the CSV does not support, a package
    without a name. The images are those of [mergeEnv]. *)
Definition strictEnv : Collaborators := {|
  DefaultIndexImage := defaultIndexImage;
  DbLocationLabel := dbLocationLabel;
  ConfigsLocationLabel := configsLocationLabel;
  ChannelsLabel := channelsLabel;
  PackageLabel := packageLabel;
  BundleAddMode_Validate := λ mode,
    if bool_decide (mode = "replaces") || bool_decide (mode = "semver") then None
    else Some ("invalid bundle add mode: " +:+ mode);
  LoadBundle := λ image _ _,
    if bool_decide (image = bundleRef) then Ok (bundleLabels, csvFoo)
    else Err "load bundle: image not found";
  CheckCompatibility := λ mode csv _,
    if bool_decide (InstallMode.InstallModeType mode = "") then None
    else if bool_decide
              ((InstallMode.InstallModeType mode, true)
                 ∈ ClusterServiceVersion.InstallModes csv)
         then None
         else Some "install mode not supported by the operator";
  GetImageLabels := @GetImageLabels mergeEnv;
  Render_Run := @Render_Run mergeEnv;
  Init_Run := λ pkg channel reader,
    if bool_decide (pkg = "") then Err "package name must be set"
    else Ok (Package.mk "olm.package" pkg channel None (default "" reader));
  Model := DeclarativeConfig.t;
  ConvertToModel := λ cfg, Ok cfg;
  Model_Validate := λ _, None;
  WriteJSON := writeJSON;
  filepath_Join := String.concat "/";
  CatalogNameForPackage := λ pkg, pkg +:+ "-catalog";
  GetSupportedInstallModes := @GetSupportedInstallModes mergeEnv;
  InstallOperator := @InstallOperator mergeEnv
|}.

(** A receiver with every input of [setup] chosen. *)
Definition installWith (bundleImage indexImage addMode : string)
    (skipTLS : bool) (installMode : string) : Install.t := {|
  Install.BundleImage := bundleImage;
  Install.Creator :=
    IndexImageCatalogCreator.mk skipTLS false false indexImage addMode
                                "" "" "" "" "";
  Install.Installer :=
    OperatorInstaller.mk (InstallMode.mk installMode []) "" "" "" ∅ "";
  Install.cfg := Configuration.mk "default"
|}.

Definition missingRef : string := "example.com/missing:latest".

(** The context of [createFBC] for a bundle image and a package. *)
Definition fbcContext (bundleImage package defaultChannel : string)
    : FBCContext.t :=
  FBCContext.mk bundleImage package defaultChannel
                "/tmp/foo-index/testFBC" "" "/tmp/foo-index"
                "olm.channel" "stable" [entryFoo] None.

(** The minimal catalog of [foo]. *)
Definition fooMinimalCatalog : DeclarativeConfig.t :=
  DeclarativeConfig.mk [pkgFoo] [chanFoo] [bundleFoo] [].

(** Modelled from the spec: the validator of the catalog (the conversion to
    a model and [Model.Validate] of operator-registry, not under [src/]),
    with the integrity checks that the specification lists: no two packages
    of one name, every channel in a package of the snapshot, every channel
    entry naming a bundle of the same package, the default channel of every
    package among its channels. The first violation is the error. *)
Definition specValidate (cfg : DeclarativeConfig.t) : option error :=
  let packages := DeclarativeConfig.Packages cfg in
  let channels := DeclarativeConfig.Channels cfg in
  let bundles := DeclarativeConfig.Bundles cfg in
  let names := map Package.Name packages in
  if negb (bool_decide (NoDup names)) then
    Some "duplicate package name"
  else if negb (forallb (λ c, bool_decide (Channel.Package c ∈ names)) channels) then
    Some "channel of a package that is not in the catalog"
  else if negb (forallb (λ c,
                  forallb (λ e,
                    existsb (λ b,
                      bool_decide (Bundle.Name b = ChannelEntry.Name e)
                      && bool_decide (Bundle.Package b = Channel.Package c))
                      bundles)
                    (Channel.Entries c))
                  channels) then
    Some "channel entry of a bundle that is not in the package"
  else if negb (forallb (λ p,
                  existsb (λ c,
                    bool_decide (Channel.Package c = Package.Name p)
                    && bool_decide (Channel.Name c = Package.DefaultChannel p))
                    channels)
                  packages) then
    Some "default channel that is not a channel of the package"
  else None.

(** An index image with the configs label that renders to an empty
    catalog, a bundle image that renders to its bundle alone, and the
    validator of the specification. *)
Definition checkedEnv : Collaborators := {|
  DefaultIndexImage := defaultIndexImage;
  DbLocationLabel := dbLocationLabel;
  ConfigsLocationLabel := configsLocationLabel;
  ChannelsLabel := channelsLabel;
  PackageLabel := packageLabel;
  BundleAddMode_Validate := @BundleAddMode_Validate mergeEnv;
  LoadBundle := @LoadBundle mergeEnv;
  CheckCompatibility := @CheckCompatibility mergeEnv;
  GetImageLabels := λ image,
    if bool_decide (image = indexRef)
    then Ok {[ configsLocationLabel := "/configs" ]}
    else Err "image not found";
  Render_Run := λ refs,
    if bool_decide (refs = [indexRef]) then Ok emptyCfg
    else if bool_decide (refs = [bundleRef]) then Ok fooBundleOnly
    else Err "render: image not found";
  Init_Run := @Init_Run mergeEnv;
  Model := DeclarativeConfig.t;
  ConvertToModel := λ cfg, Ok cfg;
  Model_Validate := specValidate;
  WriteJSON := writeJSON;
  filepath_Join := String.concat "/";
  CatalogNameForPackage := @CatalogNameForPackage mergeEnv;
  GetSupportedInstallModes := @GetSupportedInstallModes mergeEnv;
  InstallOperator := @InstallOperator mergeEnv
|}.

(** A catalog whose channel entry names a bundle that is not in it. *)
Definition danglingCatalog : DeclarativeConfig.t :=
  DeclarativeConfig.mk [pkgFoo] [chanFoo] [] [].

(** The receivers after [setup] on the labelled index image and on the
    default one. *)
Definition mergeInstalled : Install.t :=
  fst (@setup mergeEnv (install indexRef)).
Definition minimalInstalled : Install.t :=
  fst (@setup minimalEnv (install defaultIndexImage)).

End Demo.

(** ** Basic facts *)

Lemma strings_Split_cons (s : string) (sep : ascii) :
  ∃ w ws, strings_Split s sep = w :: ws.
Proof.
  induction s as [|c rest IH]; simpl; [by eauto|].
  destruct (Ascii.eqb c sep); [by eauto|].
  destruct IH as (w & ws & ->). by eauto.
Qed.

(** [strings.Split(s, sep)[0]] never panics. *)
Lemma strings_Split_index0 (s : string) (sep : ascii) :
  ∃ w, index (strings_Split s sep) 0 = Ok w.
Proof.
  destruct (strings_Split_cons s sep) as (w & ws & ->). by exists w.
Qed.

Section Merge.

Context `{Collaborators}.

Lemma rangePackages_false (pkgs : list Package.t) (p0 : Package.t) :
  rangePackages pkgs p0 true = false ↔ p0 ∈ pkgs.
Proof.
  induction pkgs as [|p rest IH]; simpl.
  - split; [done|]. by intros ?%elem_of_nil.
  - unfold reflect_DeepEqual. case_bool_decide as Heq.
    + subst. split; [intros _; by left|done].
    + rewrite IH. split; [by right|].
      intros [?|?]%elem_of_cons; [congruence|done].
Qed.

Lemma rangePackages_true (pkgs : list Package.t) (p0 : Package.t) :
  rangePackages pkgs p0 true = true ↔ p0 ∉ pkgs.
Proof.
  rewrite <- rangePackages_false.
  destruct (rangePackages pkgs p0 true); split; congruence.
Qed.

Lemma packageNotPresent_cons (t s : DeclarativeConfig.t) p0 rest :
  DeclarativeConfig.Packages s = p0 :: rest →
  packageNotPresent t s = rangePackages (DeclarativeConfig.Packages t) p0 true.
Proof. unfold packageNotPresent. by intros ->. Qed.

Lemma packageNotPresent_nil (t s : DeclarativeConfig.t) :
  DeclarativeConfig.Packages s = [] → packageNotPresent t s = true.
Proof. unfold packageNotPresent. by intros ->. Qed.

(** The merge when the test of line 248 fails. *)
Lemma mergeRendered_skip (t s : DeclarativeConfig.t) :
  packageNotPresent t s
    && (0 <? length (DeclarativeConfig.Bundles s))%nat
    && (0 <? length (DeclarativeConfig.Channels s))%nat = false →
  mergeRendered t s = Ok (Some t).
Proof. unfold mergeRendered. simpl. by intros ->. Qed.

(** The merge when the test of line 248 succeeds on a source with a
    package. *)
Lemma mergeRendered_append (t s : DeclarativeConfig.t) p0 ps b0 bs c0 cs :
  DeclarativeConfig.Packages s = p0 :: ps →
  DeclarativeConfig.Bundles s = b0 :: bs →
  DeclarativeConfig.Channels s = c0 :: cs →
  packageNotPresent t s = true →
  mergeRendered t s =
    Ok (Some {|
      DeclarativeConfig.Packages := DeclarativeConfig.Packages t ++ [p0];
      DeclarativeConfig.Channels := DeclarativeConfig.Channels t ++ [c0];
      DeclarativeConfig.Bundles := DeclarativeConfig.Bundles t ++ [b0];
      DeclarativeConfig.Others :=
        DeclarativeConfig.Others t ++ take 1 (DeclarativeConfig.Others s)
    |}).
Proof.
  intros HP HB HC Hnp. unfold mergeRendered.
  rewrite Hnp, HP, HB, HC. simpl.
  destruct (DeclarativeConfig.Others s) as [|o0 os]; simpl; [|done].
  by rewrite app_nil_r.
Qed.

(** The merge on a source without a package that has a bundle and a
    channel: [bundleDeclConfig.Packages[0]] is out of range. *)
Lemma mergeRendered_no_package (t s : DeclarativeConfig.t) :
  DeclarativeConfig.Packages s = [] →
  DeclarativeConfig.Bundles s ≠ [] →
  DeclarativeConfig.Channels s ≠ [] →
  mergeRendered t s = Panic IndexOutOfRange.
Proof.
  intros HP HB HC. unfold mergeRendered.
  rewrite (packageNotPresent_nil _ _ HP), HP.
  destruct (DeclarativeConfig.Bundles s); [done|].
  by destruct (DeclarativeConfig.Channels s).
Qed.

Lemma addBundleToIndexImage_rendered indexImage bundleImage t s :
  Render_Run [indexImage] = Ok t →
  Render_Run [bundleImage] = Ok s →
  addBundleToIndexImage indexImage bundleImage = mergeRendered t s.
Proof. unfold addBundleToIndexImage. by intros -> ->. Qed.

End Merge.

(** ** The merge of a rendered bundle into a rendered index *)

Section MergeProperties.

Context `{Collaborators}.

Implicit Types t s : DeclarativeConfig.t.

(** C4. The package of the source is judged present exactly when a package
    of the target equals [source.Packages[0]] as a record. So a source with
    a bundle and a channel whose package has the name of a package of the
    target and differs from every package of the target in some field gets
    its package appended: the result holds two packages of that name. *)
Theorem C4_presence_is_deep_equality :
  (∀ t s p0 rest,
     DeclarativeConfig.Packages s = p0 :: rest →
     packageNotPresent t s = false ↔ p0 ∈ DeclarativeConfig.Packages t) ∧
  (∀ t s p0 rest p,
     DeclarativeConfig.Packages s = p0 :: rest →
     DeclarativeConfig.Bundles s ≠ [] →
     DeclarativeConfig.Channels s ≠ [] →
     p ∈ DeclarativeConfig.Packages t →
     Package.Name p = Package.Name p0 →
     p0 ∉ DeclarativeConfig.Packages t →
     ∃ r, mergeRendered t s = Ok (Some r) ∧
          DeclarativeConfig.Packages r = DeclarativeConfig.Packages t ++ [p0] ∧
          p ∈ DeclarativeConfig.Packages r ∧
          p0 ∈ DeclarativeConfig.Packages r ∧
          p ≠ p0 ∧
          Package.Name p = Package.Name p0).
Proof.
  split.
  - intros t s p0 rest HP.
    rewrite (packageNotPresent_cons _ _ _ _ HP). apply rangePackages_false.
  - intros t s p0 rest p HP HB HC Hin Hname Hnot.
    destruct (DeclarativeConfig.Bundles s) as [|b0 bs] eqn:EB; [done|].
    destruct (DeclarativeConfig.Channels s) as [|c0 cs] eqn:EC; [done|].
    eexists. split.
    + apply (mergeRendered_append t s p0 rest b0 bs c0 cs HP EB EC).
      rewrite (packageNotPresent_cons _ _ _ _ HP). by apply rangePackages_true.
    + simpl. repeat split; [set_solver..| |done].
      intros ->. done.
Qed.

(** C6. When the package of the source is judged absent and the source has
    a package, a bundle and a channel, the merge appends the first package,
    the first bundle and the first channel of the source to the target,
    each sequence growing by one, and the first of the [Others] of the
    source when there is one. *)
Theorem C6_merge_appends_first_elements t s :
  packageNotPresent t s = true →
  (1 ≤ length (DeclarativeConfig.Packages s))%nat →
  (1 ≤ length (DeclarativeConfig.Bundles s))%nat →
  (1 ≤ length (DeclarativeConfig.Channels s))%nat →
  ∃ r p0 b0 c0,
    mergeRendered t s = Ok (Some r) ∧
    DeclarativeConfig.Packages s !! 0%nat = Some p0 ∧
    DeclarativeConfig.Bundles s !! 0%nat = Some b0 ∧
    DeclarativeConfig.Channels s !! 0%nat = Some c0 ∧
    DeclarativeConfig.Packages r = DeclarativeConfig.Packages t ++ [p0] ∧
    DeclarativeConfig.Bundles r = DeclarativeConfig.Bundles t ++ [b0] ∧
    DeclarativeConfig.Channels r = DeclarativeConfig.Channels t ++ [c0] ∧
    length (DeclarativeConfig.Packages r) = S (length (DeclarativeConfig.Packages t)) ∧
    length (DeclarativeConfig.Bundles r) = S (length (DeclarativeConfig.Bundles t)) ∧
    length (DeclarativeConfig.Channels r) = S (length (DeclarativeConfig.Channels t)) ∧
    DeclarativeConfig.Others r =
      match DeclarativeConfig.Others s with
      | [] => DeclarativeConfig.Others t
      | o0 :: _ => DeclarativeConfig.Others t ++ [o0]
      end.
Proof.
  intros Hnp HP HB HC.
  destruct (DeclarativeConfig.Packages s) as [|p0 ps] eqn:EP; [simpl in HP; lia|].
  destruct (DeclarativeConfig.Bundles s) as [|b0 bs] eqn:EB; [simpl in HB; lia|].
  destruct (DeclarativeConfig.Channels s) as [|c0 cs] eqn:EC; [simpl in HC; lia|].
  eexists _, p0, b0, c0. split.
  { apply (mergeRendered_append t s p0 ps b0 bs c0 cs EP EB EC Hnp). }
  simpl. rewrite !length_app. simpl.
  repeat split; try lia.
  destruct (DeclarativeConfig.Others s); simpl; [by rewrite app_nil_r|done].
Qed.

(** The merge of a source whose merge succeeded leaves the result of that
    merge as it is. *)
Lemma mergeRendered_again t s t1 :
  mergeRendered t s = Ok (Some t1) → mergeRendered t1 s = Ok (Some t1).
Proof.
  intros Hm.
  destruct (packageNotPresent t s
            && (0 <? length (DeclarativeConfig.Bundles s))%nat
            && (0 <? length (DeclarativeConfig.Channels s))%nat) eqn:Hc.
  - apply andb_prop in Hc as [[Hnp HB]%andb_prop HC].
    destruct (DeclarativeConfig.Bundles s) as [|b0 bs] eqn:EB; [done|].
    destruct (DeclarativeConfig.Channels s) as [|c0 cs] eqn:EC; [done|].
    destruct (DeclarativeConfig.Packages s) as [|p0 ps] eqn:EP.
    { rewrite mergeRendered_no_package in Hm; [done|done|by rewrite EB|by rewrite EC]. }
    rewrite (mergeRendered_append t s p0 ps b0 bs c0 cs EP EB EC Hnp) in Hm.
    injection Hm as <-. apply mergeRendered_skip.
    rewrite (packageNotPresent_cons _ _ _ _ EP). simpl.
    replace (rangePackages _ p0 true) with false; [done|].
    symmetry. apply rangePackages_false. set_solver.
  - rewrite (mergeRendered_skip _ _ Hc) in Hm. injection Hm as <-.
    by apply mergeRendered_skip.
Qed.

(** C7. Merging the same bundle twice: once the first merge has appended
    the package, the second merge finds a package of the target equal to
    [source.Packages[0]], judges it present, and returns the target as it
    is, so the numbers of packages, bundles and channels stay the same. *)
Theorem C7_merge_twice_idempotent t s t1 :
  mergeRendered t s = Ok (Some t1) →
  length (DeclarativeConfig.Packages t1) = S (length (DeclarativeConfig.Packages t)) →
  (∃ p0, DeclarativeConfig.Packages s !! 0%nat = Some p0 ∧
         p0 ∈ DeclarativeConfig.Packages t1) ∧
  packageNotPresent t1 s = false ∧
  ∃ r, mergeRendered t1 s = Ok (Some r) ∧
       r = t1 ∧
       length (DeclarativeConfig.Packages r) = length (DeclarativeConfig.Packages t1) ∧
       length (DeclarativeConfig.Bundles r) = length (DeclarativeConfig.Bundles t1) ∧
       length (DeclarativeConfig.Channels r) = length (DeclarativeConfig.Channels t1).
Proof.
  intros Hm Hlen.
  pose proof (mergeRendered_again _ _ _ Hm) as Hagain.
  assert (∃ p0, DeclarativeConfig.Packages s !! 0%nat = Some p0 ∧
                p0 ∈ DeclarativeConfig.Packages t1) as (p0 & Hp0 & Hin).
  { destruct (packageNotPresent t s
              && (0 <? length (DeclarativeConfig.Bundles s))%nat
              && (0 <? length (DeclarativeConfig.Channels s))%nat) eqn:Hc.
    - apply andb_prop in Hc as [[Hnp HB]%andb_prop HC].
      destruct (DeclarativeConfig.Bundles s) as [|b0 bs] eqn:EB; [done|].
      destruct (DeclarativeConfig.Channels s) as [|c0 cs] eqn:EC; [done|].
      destruct (DeclarativeConfig.Packages s) as [|p0 ps] eqn:EP.
      { rewrite mergeRendered_no_package in Hm;
          [done|done|by rewrite EB|by rewrite EC]. }
      rewrite (mergeRendered_append t s p0 ps b0 bs c0 cs EP EB EC Hnp) in Hm.
      injection Hm as <-. exists p0. split; [done|]. simpl. set_solver.
    - rewrite (mergeRendered_skip _ _ Hc) in Hm. injection Hm as <-. lia. }
  split; [by eauto|]. split.
  - destruct (DeclarativeConfig.Packages s) as [|q qs] eqn:EP; [done|].
    simpl in Hp0. injection Hp0 as ->.
    rewrite (packageNotPresent_cons _ _ _ _ EP). by apply rangePackages_false.
  - by exists t1.
Qed.

(** C8. A source with a package and a bundle and no channel: the merge
    returns the target as it is, with no error; the bundle is dropped. *)
Theorem C8_no_channel_drops_bundle t s :
  (1 ≤ length (DeclarativeConfig.Packages s))%nat →
  (1 ≤ length (DeclarativeConfig.Bundles s))%nat →
  length (DeclarativeConfig.Channels s) = 0%nat →
  mergeRendered t s = Ok (Some t).
Proof.
  intros _ _ HC. apply mergeRendered_skip.
  rewrite HC. simpl. by rewrite andb_false_r.
Qed.

End MergeProperties.

(** ** The minimal File-Based Catalog and the pipeline of [setup] *)

Section SetupProperties.

Context `{Collaborators}.

(** [createFBC] on a render with one bundle. *)
Lemma createFBC_one_bundle (f : FBCContext.t) declcfg b pkg :
  Render_Run [FBCContext.BundleImage f] = Ok declcfg →
  DeclarativeConfig.Bundles declcfg = [b] →
  Init_Run (FBCContext.Package f) (FBCContext.ChannelName f)
           (FBCContext.DescriptionReader f) = Ok pkg →
  createFBC f =
    Ok (Some {|
      DeclarativeConfig.Packages := [pkg];
      DeclarativeConfig.Channels :=
        [Channel.mk (FBCContext.ChannelSchema f) (FBCContext.ChannelName f)
                    (FBCContext.Package f) (FBCContext.ChannelEntries f)];
      DeclarativeConfig.Bundles := [b];
      DeclarativeConfig.Others := DeclarativeConfig.Others declcfg
    |}).
Proof. unfold createFBC. intros -> HB HI. simpl. rewrite HB. simpl. by rewrite HI. Qed.

(** [createFBC] on a render with no bundle or with several: the error of
    line 293. *)
Lemma createFBC_unexpected_bundle_count (f : FBCContext.t) declcfg :
  Render_Run [FBCContext.BundleImage f] = Ok declcfg →
  length (DeclarativeConfig.Bundles declcfg) ≠ 1%nat →
  createFBC f = Err "error in expected length of bundles".
Proof.
  unfold createFBC. intros -> Hlen. simpl.
  destruct (Nat.eqb_spec (length (DeclarativeConfig.Bundles declcfg)) 1); [done|].
  by destruct (length (DeclarativeConfig.Bundles declcfg)).
Qed.

(** [setup] on the default index image builds the minimal catalog, whatever
    the labels of the image are. *)
Lemma setup_declcfg_default (i : Install.t) (l : Locals.t) :
  IndexImageCatalogCreator.IndexImage (Install.Creator i) = DefaultIndexImage →
  ∃ bundleChannel,
    index (strings_Split (map_get (Locals.labels l) ChannelsLabel) ",") 0
      = Ok bundleChannel ∧
    setup_declcfg i l = createFBC (setup_FBCContext i l bundleChannel).
Proof.
  intros Hidx.
  destruct (strings_Split_index0 (map_get (Locals.labels l) ChannelsLabel) ",")
    as [ch Hch].
  exists ch. split; [done|].
  unfold setup_declcfg. rewrite Hidx.
  rewrite bool_decide_eq_true_2 by done. simpl.
  destruct (_ || _); simpl; by rewrite Hch.
Qed.

(** [setup] on another index image that has one of the two labels renders
    it and merges the bundle into it. *)
Lemma setup_declcfg_labelled (i : Install.t) (l : Locals.t) :
  map_has (Locals.catalogLabels l) DbLocationLabel
    || map_has (Locals.catalogLabels l) ConfigsLocationLabel = true →
  IndexImageCatalogCreator.IndexImage (Install.Creator i) ≠ DefaultIndexImage →
  setup_declcfg i l =
    addBundleToIndexImage (IndexImageCatalogCreator.IndexImage (Install.Creator i))
                          (Install.BundleImage i).
Proof.
  intros Hlab Hidx. unfold setup_declcfg. rewrite Hlab.
  rewrite bool_decide_eq_false_2 by done. simpl.
  by destruct (addBundleToIndexImage _ _).
Qed.

(** [setup] on another index image that has neither label leaves
    [declcfg] at [nil]. *)
Lemma setup_declcfg_unlabelled (i : Install.t) (l : Locals.t) :
  map_has (Locals.catalogLabels l) DbLocationLabel = false →
  map_has (Locals.catalogLabels l) ConfigsLocationLabel = false →
  IndexImageCatalogCreator.IndexImage (Install.Creator i) ≠ DefaultIndexImage →
  setup_declcfg i l = Ok None.
Proof.
  intros HDB HFBC Hidx. unfold setup_declcfg. rewrite HDB, HFBC.
  by rewrite bool_decide_eq_false_2 by done.
Qed.

Lemma map_has_true (m : gmap string string) (k : string) :
  map_has m k = true ↔ is_Some (m !! k).
Proof. unfold map_has. by rewrite bool_decide_eq_true. Qed.

Lemma map_has_false (m : gmap string string) (k : string) :
  map_has m k = false ↔ m !! k = None.
Proof.
  unfold map_has. rewrite bool_decide_eq_false.
  by rewrite <- eq_None_not_Some.
Qed.

(** The content that [setup] accepts is never the empty string. *)
Lemma setup_content_nonempty declcfg content :
  setup_content declcfg = Ok content → content ≠ "".
Proof.
  unfold setup_content.
  destruct (validateFBC declcfg) as [[]| |]; simpl; [|done..].
  destruct (stringifyDecConfig declcfg) as [c| |]; simpl; [|done..].
  case_bool_decide; [done|]. by intros [= <-].
Qed.

(** C2, as the code has it. When one of the two labels is on the catalog
    image and the index reference is not the default one, [setup] takes
    the merge path: [declcfg] is what [addBundleToIndexImage] returns for
    the index image and the bundle image. When neither label is there and
    the index reference is the default one, it takes the minimal-build
    path: [declcfg] is what [createFBC] returns for the context filled
    from the labels of the bundle. *)
Theorem C2_routing (i : Install.t) (l : Locals.t) :
  (is_Some (Locals.catalogLabels l !! DbLocationLabel)
     ∨ is_Some (Locals.catalogLabels l !! ConfigsLocationLabel) →
   IndexImageCatalogCreator.IndexImage (Install.Creator i) ≠ DefaultIndexImage →
   setup_declcfg i l =
     addBundleToIndexImage
       (IndexImageCatalogCreator.IndexImage (Install.Creator i))
       (Install.BundleImage i)) ∧
  (Locals.catalogLabels l !! DbLocationLabel = None →
   Locals.catalogLabels l !! ConfigsLocationLabel = None →
   IndexImageCatalogCreator.IndexImage (Install.Creator i) = DefaultIndexImage →
   ∃ bundleChannel,
     index (strings_Split (map_get (Locals.labels l) ChannelsLabel) ",") 0
       = Ok bundleChannel ∧
     setup_declcfg i l = createFBC (setup_FBCContext i l bundleChannel)).
Proof.
  split.
  - intros Hlab Hidx. apply setup_declcfg_labelled; [|done].
    apply orb_true_iff. rewrite !map_has_true. done.
  - intros _ _ Hidx. by apply setup_declcfg_default.
Qed.

(** C5. When the index image is not the default one and its labels have
    neither key, [setup] builds no declarative config: [declcfg] is still
    [nil] when [validateFBC] is called on it, and [setup] ends in the nil
    pointer dereference of [validateFBC], not in an error. *)
Theorem C5_unlabelled_index_validates_nil (i i' : Install.t) (l : Locals.t) :
  setup_load i = (i', Ok l) →
  IndexImageCatalogCreator.IndexImage (Install.Creator i') ≠ DefaultIndexImage →
  Locals.catalogLabels l !! DbLocationLabel = None →
  Locals.catalogLabels l !! ConfigsLocationLabel = None →
  setup_declcfg i' l = Ok None ∧
  setup i = setup_finish i' l None ∧
  validateFBC None = Panic NilPointerDereference ∧
  setup i = (i', Panic NilPointerDereference).
Proof.
  intros Hload Hidx HDB HFBC.
  assert (setup_declcfg i' l = Ok None) as Hcfg.
  { apply setup_declcfg_unlabelled; [by apply map_has_false..|done]. }
  unfold setup. rewrite Hload, Hcfg. done.
Qed.

(** C9. The minimal catalog for the package [foo], the channel [stable]
    and the bundle version [foo.v1.0.0]: one package, named [foo]; one
    channel, named [stable], of schema [olm.channel], with one entry named
    [foo.v1.0.0] that replaces and skips nothing; one bundle, named
    [foo.v1.0.0]. The render gives the bundle and [action.Init] the
    package of the name it is asked for. *)
Theorem C9_minimal_build_shape (i : Install.t) (l : Locals.t)
    (declcfg : DeclarativeConfig.t) (b : Bundle.t) (pkg : Package.t) :
  IndexImageCatalogCreator.IndexImage (Install.Creator i) = DefaultIndexImage →
  map_get (Locals.labels l) PackageLabel = "foo" →
  map_get (Locals.labels l) ChannelsLabel = "stable" →
  ClusterServiceVersion.Name (Locals.csv l) = "foo.v1.0.0" →
  Render_Run [Install.BundleImage i] = Ok declcfg →
  DeclarativeConfig.Bundles declcfg = [b] →
  Bundle.Name b = "foo.v1.0.0" →
  Init_Run "foo" "stable" None = Ok pkg →
  Package.Name pkg = "foo" →
  ∃ r c e,
    setup_declcfg i l = Ok (Some r) ∧
    DeclarativeConfig.Packages r = [pkg] ∧ Package.Name pkg = "foo" ∧
    DeclarativeConfig.Channels r = [c] ∧
    Channel.Name c = "stable" ∧ Channel.Schema c = "olm.channel" ∧
    Channel.Package c = "foo" ∧
    Channel.Entries c = [e] ∧
    ChannelEntry.Name e = "foo.v1.0.0" ∧
    ChannelEntry.Replaces e = "" ∧ ChannelEntry.Skips e = [] ∧
    ChannelEntry.SkipRange e = "" ∧
    DeclarativeConfig.Bundles r = [b] ∧ Bundle.Name b = "foo.v1.0.0".
Proof.
  intros Hidx Hpkg Hch Hcsv Hrender HB Hb Hinit Hname.
  destruct (setup_declcfg_default i l Hidx) as (ch & Hch0 & ->).
  rewrite Hch in Hch0. injection Hch0 as <-.
  erewrite createFBC_one_bundle; [| exact Hrender | exact HB |]; last first.
  { simpl. by rewrite Hpkg. }
  eexists _, _, _. split; [done|]. simpl.
  rewrite Hpkg, Hcsv. by repeat split.
Qed.


End SetupProperties.

(** ** The properties at concrete catalogs *)

Section Examples.

Import Demo.

(** C1, the merge path. [addBundleToIndexImage] tests
    [len(bundleDeclConfig.Bundles) < 0], which never holds: a render of the
    bundle image with two bundles is merged, its first bundle appended, and
    [setup] succeeds; a render with no bundle leaves the index as it is,
    with no error. [createFBC] refuses both renders. *)
Theorem C1_merge_path_accepts_any_bundle_count :
  @addBundleToIndexImage twoBundlesEnv indexRef bundleRef
    = Ok (Some (DeclarativeConfig.mk [pkgBar; pkgFoo] [chanBar; chanFoo]
                                     [bundleBar; bundleFoo] [])) ∧
  snd (@setup twoBundlesEnv (install indexRef)) = Ok tt ∧
  @addBundleToIndexImage noBundleEnv indexRef bundleRef = Ok (Some barCatalog) ∧
  snd (@setup noBundleEnv (install indexRef)) = Ok tt ∧
  snd (@setup twoBundlesEnv (install defaultIndexImage))
    = Err "error in expected length of bundles" ∧
  snd (@setup noBundleEnv (install defaultIndexImage))
    = Err "error in expected length of bundles".
Proof. repeat split; vm_compute; reflexivity. Qed.

(** C3, at a source with no package, one bundle and one channel: the merge
    reads [bundleDeclConfig.Packages[0]] and panics. *)
Theorem C3_no_package_index_out_of_range :
  DeclarativeConfig.Packages fooNoPackage = [] ∧
  mergeRendered barCatalog fooNoPackage = Panic IndexOutOfRange ∧
  @addBundleToIndexImage noPackageEnv indexRef bundleRef = Panic IndexOutOfRange ∧
  snd (@setup noPackageEnv (install indexRef)) = Panic IndexOutOfRange.
Proof. repeat split; vm_compute; reflexivity. Qed.

(** C2 as it is stated fails on the default index image: with the configs
    label on it, [setup] does not take the merge path; it builds the minimal
    catalog. *)
Lemma C2_counterexample :
  ¬ (∀ (H : Collaborators) (i : Install.t) (l : Locals.t),
       is_Some (Locals.catalogLabels l !! DbLocationLabel)
         ∨ is_Some (Locals.catalogLabels l !! ConfigsLocationLabel) →
       setup_declcfg i l =
         addBundleToIndexImage
           (IndexImageCatalogCreator.IndexImage (Install.Creator i))
           (Install.BundleImage i)).
Proof.
  intros Hclaim.
  specialize (Hclaim labelledDefaultEnv (install defaultIndexImage)
                (locals {[ configsLocationLabel := "/configs" ]})).
  assert (is_Some (({[ configsLocationLabel := "/configs" ]} : gmap string string)
                     !! configsLocationLabel)) as Hlab.
  { by eexists. }
  specialize (Hclaim (or_intror Hlab)).
  vm_compute in Hclaim. discriminate Hclaim.
Qed.

Lemma C2_routing_witness :
  @setup_declcfg mergeEnv (install indexRef)
      (locals {[ configsLocationLabel := "/configs" ]})
    = @addBundleToIndexImage mergeEnv indexRef bundleRef ∧
  ∃ bundleChannel,
    index (strings_Split (map_get bundleLabels channelsLabel) ",") 0
      = Ok bundleChannel ∧
    @setup_declcfg minimalEnv (install defaultIndexImage) (locals ∅)
      = @createFBC minimalEnv
          (@setup_FBCContext minimalEnv (install defaultIndexImage) (locals ∅)
             bundleChannel).
Proof.
  split.
  - apply (proj1 (@C2_routing mergeEnv (install indexRef)
                    (locals {[ configsLocationLabel := "/configs" ]}))).
    + right. by eexists.
    + discriminate.
  - apply (proj2 (@C2_routing minimalEnv (install defaultIndexImage) (locals ∅)));
      reflexivity.
Defined.

Lemma C4_presence_is_deep_equality_witness :
  (packageNotPresent describedCatalog fooRender = false
     ↔ pkgFoo ∈ DeclarativeConfig.Packages describedCatalog) ∧
  ∃ r, mergeRendered describedCatalog fooRender = Ok (Some r) ∧
       DeclarativeConfig.Packages r = [pkgBar; pkgFooDescribed; pkgFoo] ∧
       pkgFooDescribed ∈ DeclarativeConfig.Packages r ∧
       pkgFoo ∈ DeclarativeConfig.Packages r ∧
       pkgFooDescribed ≠ pkgFoo ∧
       Package.Name pkgFooDescribed = Package.Name pkgFoo.
Proof.
  split.
  - apply (proj1 C4_presence_is_deep_equality describedCatalog fooRender pkgFoo []).
    reflexivity.
  - apply (proj2 C4_presence_is_deep_equality describedCatalog fooRender
             pkgFoo [] pkgFooDescribed).
    + reflexivity.
    + discriminate.
    + discriminate.
    + apply list_elem_of_In. simpl. tauto.
    + reflexivity.
    + intros Hin%list_elem_of_In. simpl in Hin.
      destruct Hin as [Heq|[Heq|[]]]; discriminate Heq.
Defined.

Lemma C6_merge_appends_first_elements_witness :
  ∃ r p0 b0 c0,
    mergeRendered barCatalog fooRender = Ok (Some r) ∧
    DeclarativeConfig.Packages fooRender !! 0%nat = Some p0 ∧
    DeclarativeConfig.Bundles fooRender !! 0%nat = Some b0 ∧
    DeclarativeConfig.Channels fooRender !! 0%nat = Some c0 ∧
    DeclarativeConfig.Packages r = DeclarativeConfig.Packages barCatalog ++ [p0] ∧
    DeclarativeConfig.Bundles r = DeclarativeConfig.Bundles barCatalog ++ [b0] ∧
    DeclarativeConfig.Channels r = DeclarativeConfig.Channels barCatalog ++ [c0] ∧
    length (DeclarativeConfig.Packages r) = 2%nat ∧
    length (DeclarativeConfig.Bundles r) = 2%nat ∧
    length (DeclarativeConfig.Channels r) = 2%nat ∧
    DeclarativeConfig.Others r = [metaFoo].
Proof.
  apply (C6_merge_appends_first_elements barCatalog fooRender).
  - vm_compute; reflexivity.
  - simpl; lia.
  - simpl; lia.
  - simpl; lia.
Defined.

Lemma C7_merge_twice_idempotent_witness :
  (∃ p0, DeclarativeConfig.Packages fooRender !! 0%nat = Some p0 ∧
         p0 ∈ DeclarativeConfig.Packages barFooCatalog) ∧
  packageNotPresent barFooCatalog fooRender = false ∧
  ∃ r, mergeRendered barFooCatalog fooRender = Ok (Some r) ∧
       r = barFooCatalog ∧
       length (DeclarativeConfig.Packages r) = 2%nat ∧
       length (DeclarativeConfig.Bundles r) = 2%nat ∧
       length (DeclarativeConfig.Channels r) = 2%nat.
Proof.
  apply (C7_merge_twice_idempotent barCatalog fooRender barFooCatalog).
  - vm_compute; reflexivity.
  - reflexivity.
Defined.

Lemma C8_no_channel_drops_bundle_witness :
  mergeRendered barCatalog fooNoChannel = Ok (Some barCatalog).
Proof.
  apply (C8_no_channel_drops_bundle barCatalog fooNoChannel).
  - simpl; lia.
  - simpl; lia.
  - reflexivity.
Defined.

Lemma C5_unlabelled_index_validates_nil_witness :
  @setup_declcfg unlabelledEnv (install indexRef) (locals ∅) = Ok None ∧
  @setup unlabelledEnv (install indexRef)
    = @setup_finish unlabelledEnv (install indexRef) (locals ∅) None ∧
  @validateFBC unlabelledEnv None = Panic NilPointerDereference ∧
  @setup unlabelledEnv (install indexRef)
    = (install indexRef, Panic NilPointerDereference).
Proof.
  apply (@C5_unlabelled_index_validates_nil unlabelledEnv
           (install indexRef) (install indexRef) (locals ∅)).
  - vm_compute; reflexivity.
  - discriminate.
  - reflexivity.
  - reflexivity.
Defined.

Lemma C9_minimal_build_shape_witness :
  ∃ r c e,
    @setup_declcfg minimalEnv (install defaultIndexImage) (locals ∅)
      = Ok (Some r) ∧
    DeclarativeConfig.Packages r = [pkgFoo] ∧ Package.Name pkgFoo = "foo" ∧
    DeclarativeConfig.Channels r = [c] ∧
    Channel.Name c = "stable" ∧ Channel.Schema c = "olm.channel" ∧
    Channel.Package c = "foo" ∧
    Channel.Entries c = [e] ∧
    ChannelEntry.Name e = "foo.v1.0.0" ∧
    ChannelEntry.Replaces e = "" ∧ ChannelEntry.Skips e = [] ∧
    ChannelEntry.SkipRange e = "" ∧
    DeclarativeConfig.Bundles r = [bundleFoo] ∧ Bundle.Name bundleFoo = "foo.v1.0.0".
Proof.
  apply (@C9_minimal_build_shape minimalEnv (install defaultIndexImage)
           (locals ∅) fooBundleOnly bundleFoo pkgFoo).
  - reflexivity.
  - vm_compute; reflexivity.
  - vm_compute; reflexivity.
  - reflexivity.
  - vm_compute; reflexivity.
  - reflexivity.
  - reflexivity.
  - reflexivity.
  - reflexivity.
Defined.



(** The empty catalog is what [setup] composes in that environment, and
    the validator of the specification refuses a catalog with a dangling
    channel entry. *)
Lemma checkedEnv_reaches_empty_catalog :
  @setup_declcfg checkedEnv (install indexRef)
      (locals {[ configsLocationLabel := "/configs" ]}) = Ok (Some emptyCfg) ∧
  @validateFBC checkedEnv (Some emptyCfg) = Ok tt ∧
  @stringifyDecConfig checkedEnv (Some emptyCfg) = Ok "" ∧
  snd (@setup checkedEnv (install indexRef))
    = Err "File-Based Catalog contents cannot be empty" ∧
  @validateFBC checkedEnv (Some danglingCatalog)
    = Err "channel entry of a bundle that is not in the package" ∧
  @validateFBC checkedEnv (Some fooMinimalCatalog) = Ok tt.
Proof. repeat split; vm_compute; reflexivity. Qed.

End Examples.

(** ** Further properties of the merge *)

Section MergeFurther.

Context `{Collaborators}.

Implicit Types t s r : DeclarativeConfig.t.

(** What a merge that returned a configuration did: nothing, or the append
    of line 249-259. *)
Lemma mergeRendered_inv t s r :
  mergeRendered t s = Ok (Some r) →
  (r = t ∧
   packageNotPresent t s
     && (0 <? length (DeclarativeConfig.Bundles s))%nat
     && (0 <? length (DeclarativeConfig.Channels s))%nat = false) ∨
  (∃ p0 ps b0 bs c0 cs,
     DeclarativeConfig.Packages s = p0 :: ps ∧
     DeclarativeConfig.Bundles s = b0 :: bs ∧
     DeclarativeConfig.Channels s = c0 :: cs ∧
     packageNotPresent t s = true ∧
     r = {|
       DeclarativeConfig.Packages := DeclarativeConfig.Packages t ++ [p0];
       DeclarativeConfig.Channels := DeclarativeConfig.Channels t ++ [c0];
       DeclarativeConfig.Bundles := DeclarativeConfig.Bundles t ++ [b0];
       DeclarativeConfig.Others :=
         DeclarativeConfig.Others t ++ take 1 (DeclarativeConfig.Others s)
     |}).
Proof.
  intros Hm.
  destruct (packageNotPresent t s
            && (0 <? length (DeclarativeConfig.Bundles s))%nat
            && (0 <? length (DeclarativeConfig.Channels s))%nat) eqn:Hc.
  - right. apply andb_prop in Hc as [[Hnp HB]%andb_prop HC].
    destruct (DeclarativeConfig.Bundles s) as [|b0 bs] eqn:EB; [done|].
    destruct (DeclarativeConfig.Channels s) as [|c0 cs] eqn:EC; [done|].
    destruct (DeclarativeConfig.Packages s) as [|p0 ps] eqn:EP.
    { rewrite mergeRendered_no_package in Hm;
        [done|done|by rewrite EB|by rewrite EC]. }
    rewrite (mergeRendered_append t s p0 ps b0 bs c0 cs EP EB EC Hnp) in Hm.
    injection Hm as <-. by exists p0, ps, b0, bs, c0, cs.
  - left. rewrite (mergeRendered_skip _ _ Hc) in Hm. by injection Hm as <-.
Qed.

(** X1. When the first package of the source is already among the packages
    of the target, the merge returns the target as it is, whatever bundles
    and channels the source has: a further bundle of a catalogued package
    is not added. *)
Theorem X1_merge_present_package_unchanged t s p0 rest :
  DeclarativeConfig.Packages s = p0 :: rest →
  p0 ∈ DeclarativeConfig.Packages t →
  mergeRendered t s = Ok (Some t).
Proof.
  intros HP Hin. apply mergeRendered_skip.
  rewrite (packageNotPresent_cons _ _ _ _ HP).
  by rewrite (proj2 (rangePackages_false _ _) Hin).
Qed.

(** X2. The merge itself never returns an error and never a nil
    configuration; it panics, with an index out of range, exactly on a
    source without a package that has a bundle and a channel. *)
Theorem X2_merge_failure_surface t s :
  (∀ e, mergeRendered t s ≠ Err e) ∧
  mergeRendered t s ≠ Ok None ∧
  (∀ p, mergeRendered t s = Panic p ↔
        p = IndexOutOfRange ∧
        DeclarativeConfig.Packages s = [] ∧
        DeclarativeConfig.Bundles s ≠ [] ∧
        DeclarativeConfig.Channels s ≠ []).
Proof.
  destruct (packageNotPresent t s
            && (0 <? length (DeclarativeConfig.Bundles s))%nat
            && (0 <? length (DeclarativeConfig.Channels s))%nat) eqn:Hc.
  - apply andb_prop in Hc as [[Hnp HB]%andb_prop HC].
    destruct (DeclarativeConfig.Bundles s) as [|b0 bs] eqn:EB; [done|].
    destruct (DeclarativeConfig.Channels s) as [|c0 cs] eqn:EC; [done|].
    destruct (DeclarativeConfig.Packages s) as [|p0 ps] eqn:EP.
    + rewrite mergeRendered_no_package; [|done|by rewrite EB|by rewrite EC].
      split; [done|]. split; [done|]. intros p. split.
      * by intros [= <-].
      * by intros (-> & _).
    + rewrite (mergeRendered_append t s p0 ps b0 bs c0 cs EP EB EC Hnp).
      split; [done|]. split; [done|]. intros p. split; [done|].
      by intros (_ & ? & _).
  - rewrite (mergeRendered_skip _ _ Hc).
    split; [done|]. split; [done|]. intros p. split; [done|].
    intros (_ & HP & HB & HC). rewrite (packageNotPresent_nil _ _ HP) in Hc.
    destruct (DeclarativeConfig.Bundles s); [done|].
    by destruct (DeclarativeConfig.Channels s).
Qed.

(** X3. A merge that returns keeps the index: each sequence of the target
    is a prefix of the same sequence of the result, which is longer by one
    element at most. Nothing of the index is removed or reordered. *)
Theorem X3_merge_keeps_index t s r :
  mergeRendered t s = Ok (Some r) →
  DeclarativeConfig.Packages t `prefix_of` DeclarativeConfig.Packages r ∧
  DeclarativeConfig.Channels t `prefix_of` DeclarativeConfig.Channels r ∧
  DeclarativeConfig.Bundles t `prefix_of` DeclarativeConfig.Bundles r ∧
  DeclarativeConfig.Others t `prefix_of` DeclarativeConfig.Others r ∧
  (length (DeclarativeConfig.Packages r) ≤ S (length (DeclarativeConfig.Packages t)))%nat ∧
  (length (DeclarativeConfig.Channels r) ≤ S (length (DeclarativeConfig.Channels t)))%nat ∧
  (length (DeclarativeConfig.Bundles r) ≤ S (length (DeclarativeConfig.Bundles t)))%nat ∧
  (length (DeclarativeConfig.Others r) ≤ S (length (DeclarativeConfig.Others t)))%nat.
Proof.
  intros [[-> _]|(p0 & ps & b0 & bs & c0 & cs & _ & _ & _ & _ & ->)]%mergeRendered_inv.
  - repeat split; (done || lia).
  - simpl. rewrite !length_app. simpl.
    repeat split; try (by apply prefix_app_r); try lia.
    destruct (DeclarativeConfig.Others s); simpl; lia.
Qed.

(** X4. A merge that returns is all or nothing: either the target comes
    back as it is, or the first package of the source was in no package of
    the target and the first package, bundle and channel of the source were
    all three appended (with the first of the others, if any). No result
    has the bundle without its package or its channel. *)
Theorem X4_merge_all_or_nothing t s r :
  mergeRendered t s = Ok (Some r) →
  r = t ∨
  (∃ p0 b0 c0,
     DeclarativeConfig.Packages s !! 0%nat = Some p0 ∧
     DeclarativeConfig.Bundles s !! 0%nat = Some b0 ∧
     DeclarativeConfig.Channels s !! 0%nat = Some c0 ∧
     (p0 ∉ DeclarativeConfig.Packages t) ∧
     DeclarativeConfig.Packages r = DeclarativeConfig.Packages t ++ [p0] ∧
     DeclarativeConfig.Bundles r = DeclarativeConfig.Bundles t ++ [b0] ∧
     DeclarativeConfig.Channels r = DeclarativeConfig.Channels t ++ [c0] ∧
     DeclarativeConfig.Others r =
       DeclarativeConfig.Others t ++ take 1 (DeclarativeConfig.Others s)).
Proof.
  intros [[-> _]|(p0 & ps & b0 & bs & c0 & cs & EP & EB & EC & Hnp & ->)]%mergeRendered_inv;
    [by left|right].
  exists p0, b0, c0. rewrite EP, EB, EC. simpl. repeat split; try done.
  apply rangePackages_true. by rewrite <- (packageNotPresent_cons t s p0 ps EP).
Qed.

(** X5. The merge reads only the first element of each sequence of the
    source: cutting every sequence of the source to its first element
    changes nothing. Further packages, bundles, channels and others of the
    render are dropped. *)
Theorem X5_merge_reads_first_elements_only t s :
  mergeRendered t s =
  mergeRendered t {|
    DeclarativeConfig.Packages := take 1 (DeclarativeConfig.Packages s);
    DeclarativeConfig.Channels := take 1 (DeclarativeConfig.Channels s);
    DeclarativeConfig.Bundles := take 1 (DeclarativeConfig.Bundles s);
    DeclarativeConfig.Others := take 1 (DeclarativeConfig.Others s)
  |}.
Proof.
  unfold mergeRendered, packageNotPresent. simpl.
  destruct (DeclarativeConfig.Packages s) as [|p0 ps];
    destruct (DeclarativeConfig.Bundles s) as [|b0 bs];
    destruct (DeclarativeConfig.Channels s) as [|c0 cs];
    destruct (DeclarativeConfig.Others s) as [|o0 os]; reflexivity.
Qed.

(** X6. The merge introduces no package that is deeply equal to another:
    when no two packages of the target are equal, no two packages of the
    result are. *)
Theorem X6_merge_keeps_packages_distinct t s r :
  NoDup (DeclarativeConfig.Packages t) →
  mergeRendered t s = Ok (Some r) →
  NoDup (DeclarativeConfig.Packages r).
Proof.
  intros Hnd
    [[-> _]|(p0 & ps & b0 & bs & c0 & cs & EP & _ & _ & Hnp & ->)]%mergeRendered_inv;
    [done|].
  simpl. apply NoDup_app. split; [done|]. split; [|apply NoDup_singleton].
  intros x Hx ->%list_elem_of_singleton.
  rewrite (packageNotPresent_cons _ _ _ _ EP) in Hnp.
  by apply rangePackages_true in Hnp.
Qed.

(** X7. [addBundleToIndexImage] returns the error of the render of the
    index image as it is, whatever the bundle image is; when the index
    image renders, it returns the error of the render of the bundle image
    as it is, and the index is not returned. *)
Theorem X7_addBundleToIndexImage_render_errors indexImage bundleImage :
  (∀ e, Render_Run [indexImage] = Err e →
        addBundleToIndexImage indexImage bundleImage = Err e) ∧
  (∀ t e, Render_Run [indexImage] = Ok t →
          Render_Run [bundleImage] = Err e →
          addBundleToIndexImage indexImage bundleImage = Err e).
Proof.
  unfold addBundleToIndexImage. split.
  - by intros e ->.
  - by intros t e -> ->.
Qed.

End MergeFurther.

(** ** Further properties of [createFBC] *)

Section CreateFBCFurther.

Context `{Collaborators}.

Lemma mergeRendered_not_nil (t s : DeclarativeConfig.t) :
  mergeRendered t s ≠ Ok None.
Proof.
  destruct (packageNotPresent t s
            && (0 <? length (DeclarativeConfig.Bundles s))%nat
            && (0 <? length (DeclarativeConfig.Channels s))%nat) eqn:Hc.
  - apply andb_prop in Hc as [[Hnp HB]%andb_prop HC].
    destruct (DeclarativeConfig.Bundles s) as [|b0 bs] eqn:EB; [done|].
    destruct (DeclarativeConfig.Channels s) as [|c0 cs] eqn:EC; [done|].
    destruct (DeclarativeConfig.Packages s) as [|p0 ps] eqn:EP.
    + by rewrite mergeRendered_no_package;
        [|done|by rewrite EB|by rewrite EC].
    + by rewrite (mergeRendered_append t s p0 ps b0 bs c0 cs EP EB EC Hnp).
  - by rewrite (mergeRendered_skip _ _ Hc).
Qed.

Lemma addBundleToIndexImage_not_nil (indexImage bundleImage : string) :
  addBundleToIndexImage indexImage bundleImage ≠ Ok None.
Proof.
  unfold addBundleToIndexImage.
  destruct (Render_Run [indexImage]) as [t| |]; [|done..].
  destruct (Render_Run [bundleImage]) as [s| |]; [|done..].
  apply mergeRendered_not_nil.
Qed.

(** What a [createFBC] that returned a configuration was given. *)
Lemma createFBC_inv (f : FBCContext.t) (r : option DeclarativeConfig.t) :
  createFBC f = Ok r →
  ∃ declcfg b pkg,
    Render_Run [FBCContext.BundleImage f] = Ok declcfg ∧
    DeclarativeConfig.Bundles declcfg = [b] ∧
    Init_Run (FBCContext.Package f) (FBCContext.ChannelName f)
             (FBCContext.DescriptionReader f) = Ok pkg ∧
    r = Some {|
      DeclarativeConfig.Packages := [pkg];
      DeclarativeConfig.Channels :=
        [Channel.mk (FBCContext.ChannelSchema f) (FBCContext.ChannelName f)
                    (FBCContext.Package f) (FBCContext.ChannelEntries f)];
      DeclarativeConfig.Bundles := [b];
      DeclarativeConfig.Others := DeclarativeConfig.Others declcfg
    |}.
Proof.
  unfold createFBC.
  destruct (Render_Run [FBCContext.BundleImage f]) as [declcfg| |]; [|done..].
  simpl.
  destruct (DeclarativeConfig.Bundles declcfg) as [|b [|b' bs]] eqn:EB;
    simpl; [done| |done].
  destruct (Init_Run _ _ _) as [pkg| |] eqn:EI; simpl; [|done..].
  intros [= <-]. by exists declcfg, b, pkg.
Qed.

(** X8. When the render of the bundle image does not hold exactly one
    bundle, [createFBC] fails with "error in expected length of bundles";
    [action.Init] has no part in the result. *)
Theorem X8_createFBC_requires_one_bundle (f : FBCContext.t) declcfg :
  Render_Run [FBCContext.BundleImage f] = Ok declcfg →
  length (DeclarativeConfig.Bundles declcfg) ≠ 1%nat →
  createFBC f = Err "error in expected length of bundles".
Proof.
  unfold createFBC. intros -> Hlen. simpl.
  destruct (DeclarativeConfig.Bundles declcfg) as [|b [|b' bs]]; simpl in *;
    [done| lia |done].
Qed.

(** X9. [createFBC] returns the errors of its collaborators as they are:
    the error of the render of the bundle image, and, when the render holds
    one bundle, the error of [action.Init]. *)
Theorem X9_createFBC_collaborator_errors (f : FBCContext.t) :
  (∀ e, Render_Run [FBCContext.BundleImage f] = Err e → createFBC f = Err e) ∧
  (∀ declcfg b e,
     Render_Run [FBCContext.BundleImage f] = Ok declcfg →
     DeclarativeConfig.Bundles declcfg = [b] →
     Init_Run (FBCContext.Package f) (FBCContext.ChannelName f)
              (FBCContext.DescriptionReader f) = Err e →
     createFBC f = Err e).
Proof.
  unfold createFBC. split.
  - by intros e ->.
  - intros declcfg b e -> HB HI. simpl. rewrite HB. simpl. by rewrite HI.
Qed.

(** X10. A [createFBC] that returns gives a configuration, never nil, with
    exactly one package, the one [action.Init] made for the package and the
    channel name of the context; exactly one channel, with the schema, name,
    package and entries of the context; exactly one bundle, the one of the
    render; and the others of the render. The packages and channels of the
    render are not in it. *)
Theorem X10_createFBC_shape (f : FBCContext.t) (r : option DeclarativeConfig.t) :
  createFBC f = Ok r →
  ∃ cfg declcfg b pkg c,
    r = Some cfg ∧
    Render_Run [FBCContext.BundleImage f] = Ok declcfg ∧
    DeclarativeConfig.Bundles declcfg = [b] ∧
    Init_Run (FBCContext.Package f) (FBCContext.ChannelName f)
             (FBCContext.DescriptionReader f) = Ok pkg ∧
    DeclarativeConfig.Packages cfg = [pkg] ∧
    DeclarativeConfig.Channels cfg = [c] ∧
    Channel.Schema c = FBCContext.ChannelSchema f ∧
    Channel.Name c = FBCContext.ChannelName f ∧
    Channel.Package c = FBCContext.Package f ∧
    Channel.Entries c = FBCContext.ChannelEntries f ∧
    DeclarativeConfig.Bundles cfg = [b] ∧
    DeclarativeConfig.Others cfg = DeclarativeConfig.Others declcfg.
Proof.
  intros (declcfg & b & pkg & Hr & HB & HI & ->)%createFBC_inv.
  eexists _, declcfg, b, pkg, _. by repeat split.
Qed.

(** X11. [createFBC] reads the bundle image, the package, the channel
    schema, the channel name, the channel entries and the description
    reader of the context, and nothing else: two contexts that agree on
    these give the same result. The [DefaultChannel] of the context is not
    read: the default channel asked of [action.Init] is the channel name,
    so that on a render with one bundle the result is decided by what
    [action.Init] returns for the package, the channel name and the
    description reader of the context. *)
Theorem X11_createFBC_reads (f : FBCContext.t) :
  (∀ g,
     FBCContext.BundleImage f = FBCContext.BundleImage g →
     FBCContext.Package f = FBCContext.Package g →
     FBCContext.ChannelSchema f = FBCContext.ChannelSchema g →
     FBCContext.ChannelName f = FBCContext.ChannelName g →
     FBCContext.ChannelEntries f = FBCContext.ChannelEntries g →
     FBCContext.DescriptionReader f = FBCContext.DescriptionReader g →
     createFBC f = createFBC g) ∧
  (∀ declcfg b,
     Render_Run [FBCContext.BundleImage f] = Ok declcfg →
     DeclarativeConfig.Bundles declcfg = [b] →
     createFBC f =
       match Init_Run (FBCContext.Package f) (FBCContext.ChannelName f)
                      (FBCContext.DescriptionReader f) with
       | Ok pkg =>
           Ok (Some {|
             DeclarativeConfig.Packages := [pkg];
             DeclarativeConfig.Channels :=
               [Channel.mk (FBCContext.ChannelSchema f) (FBCContext.ChannelName f)
                           (FBCContext.Package f) (FBCContext.ChannelEntries f)];
             DeclarativeConfig.Bundles := [b];
             DeclarativeConfig.Others := DeclarativeConfig.Others declcfg
           |})
       | Err e => Err e
       | Panic p => Panic p
       end).
Proof.
  split.
  - unfold createFBC. by intros g -> -> -> -> -> ->.
  - intros declcfg b Hr HB. unfold createFBC. rewrite Hr. simpl.
    rewrite HB. simpl. by destruct (Init_Run _ _ _).
Qed.

End CreateFBCFurther.

(** ** Further properties of [setup] and [Run] *)

(** The first substring that [strings.Split] gives holds no separator, and
    the string is that substring, alone or followed by a separator. *)
Lemma strings_Split_first (s : string) (sep : ascii) (w : string) (ws : list string) :
  strings_Split s sep = w :: ws →
  (∀ c, In c (list_ascii_of_string w) → c ≠ sep) ∧
  ((ws = [] ∧ s = w) ∨
   (∃ rest, s = w +:+ String sep rest ∧ ws = strings_Split rest sep)).
Proof.
  revert w ws. induction s as [|c rest IH]; simpl; intros w ws.
  - intros [= <- <-]. split; [by intros c []|by left].
  - destruct (Ascii.eqb_spec c sep) as [->|Hne].
    + intros [= <- <-]. split; [by intros c []|].
      right. by exists rest.
    + destruct (strings_Split rest sep) as [|w' ws'] eqn:ES.
      { by destruct (strings_Split_cons rest sep) as (? & ? & ?); congruence. }
      intros [= <- <-]. destruct (IH w' ws' eq_refl) as [Hw' Hs]. split.
      * intros c' [<-|Hin]; [done|by apply Hw'].
      * destruct Hs as [[-> ->]|(rest' & -> & ->)]; [by left|].
        right. by exists rest'.
Qed.

Section SetupFurther.

Context `{Collaborators}.

(** The receiver that the loading part of [setup] leaves. *)
Lemma setup_load_receiver (i : Install.t) :
  fst (setup_load i) = i ∨
  (IndexImageCatalogCreator.SkipTLS (Install.Creator i) = true ∧
   fst (setup_load i) = set_UseHTTP true i).
Proof.
  unfold setup_load.
  destruct (if negb _ then _ else None); [by left|].
  destruct (IndexImageCatalogCreator.SkipTLS (Install.Creator i)); simpl;
    [by right|by left].
Qed.

(** What a loading part that succeeded was given. *)
Lemma setup_load_inv (i i1 : Install.t) (l : Locals.t) :
  setup_load i = (i1, Ok l) →
  (IndexImageCatalogCreator.BundleAddMode (Install.Creator i) = "" ∨
   BundleAddMode_Validate
     (IndexImageCatalogCreator.BundleAddMode (Install.Creator i)) = None) ∧
  i1 = (if IndexImageCatalogCreator.SkipTLS (Install.Creator i)
        then set_UseHTTP true i else i) ∧
  LoadBundle (Install.BundleImage i)
             (IndexImageCatalogCreator.SkipTLSVerify (Install.Creator i))
             (IndexImageCatalogCreator.SkipTLS (Install.Creator i)
              || IndexImageCatalogCreator.UseHTTP (Install.Creator i))
    = Ok (Locals.labels l, Locals.csv l) ∧
  CheckCompatibility (OperatorInstaller.InstallMode (Install.Installer i))
    (Locals.csv l) (Configuration.Namespace (Install.cfg i)) = None ∧
  GetImageLabels (IndexImageCatalogCreator.IndexImage (Install.Creator i))
    = Ok (Locals.catalogLabels l) ∧
  Locals.fileName l = filepath_Join [Locals.directoryName l; "testFBC"].
Proof.
  unfold setup_load. intros Hl.
  assert ((IndexImageCatalogCreator.BundleAddMode (Install.Creator i) = "" ∨
           BundleAddMode_Validate
             (IndexImageCatalogCreator.BundleAddMode (Install.Creator i)) = None)
          ∧ (if negb (bool_decide
                        (IndexImageCatalogCreator.BundleAddMode (Install.Creator i) = ""))
             then BundleAddMode_Validate
                    (IndexImageCatalogCreator.BundleAddMode (Install.Creator i))
             else None) = None) as [Hmode Hnone].
  { case_bool_decide as Hm; simpl in *; [by split; [left|]|].
    destruct (BundleAddMode_Validate _); [done|]. by split; [right|]. }
  rewrite Hnone in Hl. split; [done|].
  destruct (IndexImageCatalogCreator.SkipTLS (Install.Creator i)); simpl in Hl.
  - injection Hl as <- Hl. split; [done|].
    destruct (LoadBundle _ _ _) as [[labels csv]| |]; simpl in Hl; [|done..].
    destruct (CheckCompatibility _ _ _) eqn:EC; simpl in Hl; [done|].
    destruct (index _ 0) as [name0| |]; simpl in Hl; [|done..].
    destruct (GetImageLabels _) as [m| |]; simpl in Hl; [|done..].
    injection Hl as <-. simpl. by repeat split.
  - injection Hl as <- Hl. split; [done|].
    destruct (LoadBundle _ _ _) as [[labels csv]| |]; simpl in Hl; [|done..].
    destruct (CheckCompatibility _ _ _) eqn:EC; simpl in Hl; [done|].
    destruct (index _ 0) as [name0| |]; simpl in Hl; [|done..].
    destruct (GetImageLabels _) as [m| |]; simpl in Hl; [|done..].
    injection Hl as <-. simpl. by repeat split.
Qed.

(** The receiver that the last part of [setup] leaves when it fails. *)
Lemma setup_finish_fail (i : Install.t) (l : Locals.t) declcfg :
  snd (setup_finish i l declcfg) ≠ Ok tt → fst (setup_finish i l declcfg) = i.
Proof.
  unfold setup_finish.
  destruct (setup_content declcfg) as [content| |]; simpl; [|done..].
  by destruct (index _ 0) as [channel| |].
Qed.

(** The receiver that the last part of [setup] leaves when it succeeds. *)
Lemma setup_finish_ok (i i' : Install.t) (l : Locals.t) declcfg :
  setup_finish i l declcfg = (i', Ok tt) →
  ∃ content channel,
    setup_content declcfg = Ok content ∧
    index (strings_Split (map_get (Locals.labels l) ChannelsLabel) ",") 0
      = Ok channel ∧
    Install.BundleImage i' = Install.BundleImage i ∧
    Install.cfg i' = Install.cfg i ∧
    IndexImageCatalogCreator.SkipTLS (Install.Creator i')
      = IndexImageCatalogCreator.SkipTLS (Install.Creator i) ∧
    IndexImageCatalogCreator.SkipTLSVerify (Install.Creator i')
      = IndexImageCatalogCreator.SkipTLSVerify (Install.Creator i) ∧
    IndexImageCatalogCreator.UseHTTP (Install.Creator i')
      = IndexImageCatalogCreator.UseHTTP (Install.Creator i) ∧
    IndexImageCatalogCreator.IndexImage (Install.Creator i')
      = IndexImageCatalogCreator.IndexImage (Install.Creator i) ∧
    IndexImageCatalogCreator.BundleAddMode (Install.Creator i')
      = IndexImageCatalogCreator.BundleAddMode (Install.Creator i) ∧
    OperatorInstaller.InstallMode (Install.Installer i')
      = OperatorInstaller.InstallMode (Install.Installer i) ∧
    IndexImageCatalogCreator.PackageName (Install.Creator i')
      = map_get (Locals.labels l) PackageLabel ∧
    IndexImageCatalogCreator.BundleImage (Install.Creator i')
      = Install.BundleImage i ∧
    IndexImageCatalogCreator.FBCcontent (Install.Creator i') = content ∧
    IndexImageCatalogCreator.FBCdir (Install.Creator i') = Locals.directoryName l ∧
    IndexImageCatalogCreator.FBCfile (Install.Creator i') = Locals.fileName l ∧
    OperatorInstaller.PackageName (Install.Installer i')
      = map_get (Locals.labels l) PackageLabel ∧
    OperatorInstaller.CatalogSourceName (Install.Installer i')
      = CatalogNameForPackage (map_get (Locals.labels l) PackageLabel) ∧
    OperatorInstaller.StartingCSV (Install.Installer i')
      = ClusterServiceVersion.Name (Locals.csv l) ∧
    OperatorInstaller.SupportedInstallModes (Install.Installer i')
      = GetSupportedInstallModes (ClusterServiceVersion.InstallModes (Locals.csv l)) ∧
    OperatorInstaller.Channel (Install.Installer i') = channel.
Proof.
  unfold setup_finish.
  destruct (setup_content declcfg) as [content| |]; simpl; [|done..].
  destruct (index _ 0) as [channel| |]; simpl; [|done..].
  intros [= <-]. exists content, channel. simpl. by repeat split.
Qed.

(** The parts of a [setup] that succeeded. *)
Lemma setup_inv_ok (i i' : Install.t) :
  setup i = (i', Ok tt) →
  ∃ i1 l declcfg,
    setup_load i = (i1, Ok l) ∧
    setup_declcfg i1 l = Ok declcfg ∧
    setup_finish i1 l declcfg = (i', Ok tt).
Proof.
  unfold setup.
  destruct (setup_load i) as [i1 [l| |]]; [|done..].
  destruct (setup_declcfg i1 l) as [declcfg| |] eqn:Hd; [|done..].
  intros Hf. exists i1, l, declcfg. by repeat split.
Qed.

(** The receiver of a [setup] that failed is the one the loading part
    left. *)
Lemma setup_fail_receiver (i : Install.t) :
  snd (setup i) ≠ Ok tt → fst (setup i) = fst (setup_load i).
Proof.
  unfold setup.
  destruct (setup_load i) as [i1 [l| |]]; [|done..].
  destruct (setup_declcfg i1 l) as [declcfg| |]; [|done..].
  simpl. apply setup_finish_fail.
Qed.

Lemma setup_content_inv declcfg content :
  setup_content declcfg = Ok content →
  ∃ cfg, declcfg = Some cfg ∧ validateFBC (Some cfg) = Ok tt ∧
         WriteJSON cfg = (content, None) ∧ content ≠ "".
Proof.
  intros Hc. pose proof (setup_content_nonempty _ _ Hc) as Hne.
  unfold setup_content in Hc.
  destruct declcfg as [cfg|]; [|by simpl in Hc].
  destruct (validateFBC (Some cfg)) as [[]| |] eqn:HV;
    unfold mbind, outcome_bind in Hc; cbv beta iota in Hc; [|done..].
  exists cfg. split; [done|]. split; [done|].
  unfold stringifyDecConfig in Hc.
  destruct (WriteJSON cfg) as [buf [err|]]; [done|].
  case_bool_decide; [done|]. by injection Hc as ->.
Qed.

End SetupFurther.

Section PipelineProperties.

Context `{Collaborators}.

Lemma setup_load_valid (i : Install.t) :
  IndexImageCatalogCreator.BundleAddMode (Install.Creator i) = "" ∨
  BundleAddMode_Validate
    (IndexImageCatalogCreator.BundleAddMode (Install.Creator i)) = None →
  (if negb (bool_decide
              (IndexImageCatalogCreator.BundleAddMode (Install.Creator i) = ""))
   then BundleAddMode_Validate
          (IndexImageCatalogCreator.BundleAddMode (Install.Creator i))
   else None) = None.
Proof. intros [Hm|Hm]; case_bool_decide; simpl; done. Qed.

Lemma setup_load_valid_receiver (i : Install.t) :
  IndexImageCatalogCreator.BundleAddMode (Install.Creator i) = "" ∨
  BundleAddMode_Validate
    (IndexImageCatalogCreator.BundleAddMode (Install.Creator i)) = None →
  fst (setup_load i) =
    if IndexImageCatalogCreator.SkipTLS (Install.Creator i)
    then set_UseHTTP true i else i.
Proof.
  intros Hm. unfold setup_load. rewrite (setup_load_valid i Hm).
  by destruct (IndexImageCatalogCreator.SkipTLS (Install.Creator i)).
Qed.

(** X12. [declcfg] is nil when [validateFBC] is reached exactly when the
    index image is not the default one and has neither label: on the
    default index image and on a labelled one, a composition that returns
    returns a configuration. *)
Theorem X12_declcfg_nil_exactly_when_unlabelled (i : Install.t) (l : Locals.t) :
  setup_declcfg i l = Ok None ↔
  IndexImageCatalogCreator.IndexImage (Install.Creator i) ≠ DefaultIndexImage ∧
  Locals.catalogLabels l !! DbLocationLabel = None ∧
  Locals.catalogLabels l !! ConfigsLocationLabel = None.
Proof.
  split.
  - intros Hnil.
    destruct (decide (IndexImageCatalogCreator.IndexImage (Install.Creator i)
                      = DefaultIndexImage)) as [Hidx|Hidx].
    { destruct (setup_declcfg_default i l Hidx) as (ch & _ & Heq).
      rewrite Heq in Hnil.
      by destruct (createFBC_inv _ _ Hnil) as (? & ? & ? & _ & _ & _ & ?). }
    split; [done|].
    destruct (map_has (Locals.catalogLabels l) DbLocationLabel
              || map_has (Locals.catalogLabels l) ConfigsLocationLabel) eqn:Hlab.
    { rewrite (setup_declcfg_labelled i l Hlab Hidx) in Hnil.
      by apply addBundleToIndexImage_not_nil in Hnil. }
    apply orb_false_elim in Hlab as [HDB HFBC].
    by rewrite <- !map_has_false.
  - intros (Hidx & HDB & HFBC).
    apply setup_declcfg_unlabelled; [by apply map_has_false..|done].
Qed.

(** X13. On the default index image the labels of the image have no part
    in the composition: with any other labels the result is the same. A
    label on the default index image does not lead to the merge. *)
Theorem X13_default_index_ignores_labels (i : Install.t) (l : Locals.t)
    (m : gmap string string) :
  IndexImageCatalogCreator.IndexImage (Install.Creator i) = DefaultIndexImage →
  setup_declcfg i l =
  setup_declcfg i (Locals.mk (Locals.labels l) (Locals.csv l)
                     (Locals.directoryName l) (Locals.fileName l) m).
Proof.
  intros Hidx.
  destruct (setup_declcfg_default i l Hidx) as (ch & Hch & ->).
  destruct (setup_declcfg_default i
              (Locals.mk (Locals.labels l) (Locals.csv l)
                 (Locals.directoryName l) (Locals.fileName l) m) Hidx)
    as (ch' & Hch' & ->).
  simpl in Hch'. rewrite Hch in Hch'. by injection Hch' as <-.
Qed.

(** X14. A [setup] that fails, with an error or a panic, leaves the
    receiver as it was, except that [UseHTTP] has been set when [SkipTLS]
    is set: no field of the installer or of the catalog is written. *)
Theorem X14_setup_failure_keeps_receiver (i : Install.t) :
  snd (setup i) ≠ Ok tt →
  fst (setup i) = i ∨
  (IndexImageCatalogCreator.SkipTLS (Install.Creator i) = true ∧
   fst (setup i) = set_UseHTTP true i).
Proof.
  intros Hf. rewrite (setup_fail_receiver i Hf). apply setup_load_receiver.
Qed.

(** X15. [setup] never changes what it was given: the bundle image, the
    index image, [SkipTLS], [SkipTLSVerify], the add mode, the install mode
    and the configuration of the receiver are the same after it, whatever
    its result. *)
Theorem X15_setup_keeps_inputs (i : Install.t) :
  Install.BundleImage (fst (setup i)) = Install.BundleImage i ∧
  Install.cfg (fst (setup i)) = Install.cfg i ∧
  IndexImageCatalogCreator.IndexImage (Install.Creator (fst (setup i)))
    = IndexImageCatalogCreator.IndexImage (Install.Creator i) ∧
  IndexImageCatalogCreator.SkipTLS (Install.Creator (fst (setup i)))
    = IndexImageCatalogCreator.SkipTLS (Install.Creator i) ∧
  IndexImageCatalogCreator.SkipTLSVerify (Install.Creator (fst (setup i)))
    = IndexImageCatalogCreator.SkipTLSVerify (Install.Creator i) ∧
  IndexImageCatalogCreator.BundleAddMode (Install.Creator (fst (setup i)))
    = IndexImageCatalogCreator.BundleAddMode (Install.Creator i) ∧
  OperatorInstaller.InstallMode (Install.Installer (fst (setup i)))
    = OperatorInstaller.InstallMode (Install.Installer i).
Proof.
  destruct (setup i) as [i' o] eqn:Hs. simpl.
  destruct o as [[]|e|p].
  - destruct (setup_inv_ok i i' Hs) as (i1 & l & d & Hl & _ & Hfin).
    destruct (setup_load_inv i i1 l Hl) as (_ & Hi1 & _).
    destruct (setup_finish_ok i1 i' l d Hfin)
      as (content & channel & _ & _ & -> & -> & -> & -> & _ & -> & -> & -> & _).
    subst i1.
    destruct (IndexImageCatalogCreator.SkipTLS (Install.Creator i)) eqn:E;
      simpl; by repeat split.
  - pose proof (setup_fail_receiver i) as Hr. rewrite Hs in Hr. simpl in *.
    rewrite Hr by done.
    destruct (setup_load_receiver i) as [->|[E ->]]; simpl; by repeat split.
  - pose proof (setup_fail_receiver i) as Hr. rewrite Hs in Hr. simpl in *.
    rewrite Hr by done.
    destruct (setup_load_receiver i) as [->|[E ->]]; simpl; by repeat split.
Qed.

(** X16. When the add mode is empty or valid, the receiver after [setup]
    has [UseHTTP] set if [SkipTLS] or [UseHTTP] was set before, also when
    [setup] fails later. *)
Theorem X16_skipTLS_sets_useHTTP (i : Install.t) :
  IndexImageCatalogCreator.BundleAddMode (Install.Creator i) = "" ∨
  BundleAddMode_Validate
    (IndexImageCatalogCreator.BundleAddMode (Install.Creator i)) = None →
  IndexImageCatalogCreator.UseHTTP (Install.Creator (fst (setup i))) =
    IndexImageCatalogCreator.SkipTLS (Install.Creator i)
    || IndexImageCatalogCreator.UseHTTP (Install.Creator i).
Proof.
  intros Hm. pose proof (setup_load_valid_receiver i Hm) as Hl1.
  destruct (setup i) as [i' o] eqn:Hs. simpl.
  destruct o as [[]|e|p].
  - destruct (setup_inv_ok i i' Hs) as (i1 & l & d & Hl & _ & Hfin).
    rewrite Hl in Hl1. simpl in Hl1.
    destruct (setup_finish_ok i1 i' l d Hfin)
      as (content & channel & _ & _ & _ & _ & _ & _ & -> & _).
    subst i1. by destruct (IndexImageCatalogCreator.SkipTLS (Install.Creator i)).
  - pose proof (setup_fail_receiver i) as Hr. rewrite Hs in Hr. simpl in *.
    rewrite Hr by done. rewrite Hl1.
    by destruct (IndexImageCatalogCreator.SkipTLS (Install.Creator i)).
  - pose proof (setup_fail_receiver i) as Hr. rewrite Hs in Hr. simpl in *.
    rewrite Hr by done. rewrite Hl1.
    by destruct (IndexImageCatalogCreator.SkipTLS (Install.Creator i)).
Qed.

(** X21. The errors of the loading part, once the add mode is empty or
    valid: the error of [LoadBundle] and the error of the install mode
    check are returned as they are, the error of the labels of the index
    image with "get index image labels: " before it. [LoadBundle] is
    called with [UseHTTP] set when [SkipTLS] is. *)
Theorem X21_setup_loading_errors (i : Install.t) :
  IndexImageCatalogCreator.BundleAddMode (Install.Creator i) = "" ∨
  BundleAddMode_Validate
    (IndexImageCatalogCreator.BundleAddMode (Install.Creator i)) = None →
  let load :=
    LoadBundle (Install.BundleImage i)
      (IndexImageCatalogCreator.SkipTLSVerify (Install.Creator i))
      (IndexImageCatalogCreator.SkipTLS (Install.Creator i)
       || IndexImageCatalogCreator.UseHTTP (Install.Creator i)) in
  let compatible csv :=
    CheckCompatibility (OperatorInstaller.InstallMode (Install.Installer i))
      csv (Configuration.Namespace (Install.cfg i)) in
  (∀ e, load = Err e → snd (setup i) = Err e) ∧
  (∀ labels csv e,
     load = Ok (labels, csv) → compatible csv = Some e →
     snd (setup i) = Err e) ∧
  (∀ labels csv e,
     load = Ok (labels, csv) → compatible csv = None →
     GetImageLabels (IndexImageCatalogCreator.IndexImage (Install.Creator i))
       = Err e →
     snd (setup i) = Err ("get index image labels: " +:+ e)).
Proof.
  intros Hm load compatible. subst load compatible.
  unfold setup, setup_load. rewrite (setup_load_valid i Hm).
  destruct (IndexImageCatalogCreator.SkipTLS (Install.Creator i)); simpl.
  - split; [by intros e ->|]. split.
    + intros labels csv e HL HC. rewrite HL. simpl. by rewrite HC.
    + intros labels csv e HL HC Hlab. rewrite HL. simpl. rewrite HC. simpl.
      destruct (strings_Split_index0 (ClusterServiceVersion.Name csv) ".")
        as [name0 ->]. simpl. by rewrite Hlab.
  - split; [by intros e ->|]. split.
    + intros labels csv e HL HC. rewrite HL. simpl. by rewrite HC.
    + intros labels csv e HL HC Hlab. rewrite HL. simpl. rewrite HC. simpl.
      destruct (strings_Split_index0 (ClusterServiceVersion.Name csv) ".")
        as [name0 ->]. simpl. by rewrite Hlab.
Qed.

(** X22. An add mode that is set and not valid ends [setup] at once with
    the error of the validation: the receiver is as it was, [UseHTTP] is
    not set even when [SkipTLS] is, and [Run] returns that error. *)
Theorem X22_invalid_add_mode_first (i : Install.t) (err : error) :
  IndexImageCatalogCreator.BundleAddMode (Install.Creator i) ≠ "" →
  BundleAddMode_Validate
    (IndexImageCatalogCreator.BundleAddMode (Install.Creator i)) = Some err →
  setup i = (i, Err err) ∧ Run i = Err err.
Proof.
  intros Hne Hv.
  assert (setup i = (i, Err err)) as Hs.
  { unfold setup, setup_load. rewrite bool_decide_eq_false_2 by done.
    simpl. by rewrite Hv. }
  split; [done|]. unfold Run. by rewrite Hs.
Qed.

(** X23. [setup] accepts a declarative config, and takes its text as the
    content of the catalog, exactly when the config converts to a model,
    the model is valid, the text is written without an error and the text
    is not empty. *)
Theorem X23_accepted_content (cfg : DeclarativeConfig.t) (content : string) :
  setup_content (Some cfg) = Ok content ↔
  ∃ model,
    ConvertToModel cfg = Ok model ∧
    Model_Validate model = None ∧
    WriteJSON cfg = (content, None) ∧
    content ≠ "".
Proof.
  split.
  - intros (cfg' & [= <-] & Hv & Hw & Hne)%setup_content_inv.
    unfold validateFBC in Hv.
    destruct (ConvertToModel cfg) as [model| |] eqn:EM; simpl in Hv; [|done..].
    destruct (Model_Validate model) eqn:EV; simpl in Hv; [done|].
    by exists model.
  - intros (model & EM & EV & Hw & Hne).
    unfold setup_content, validateFBC, stringifyDecConfig.
    rewrite EM. simpl. rewrite EV. simpl. rewrite Hw. simpl.
    by rewrite bool_decide_eq_false_2.
Qed.

End PipelineProperties.

Section SuccessProperties.

Context `{Collaborators}.

(** What the loading part leaves of the images of the receiver. *)
Lemma loaded_receiver_images (i : Install.t) :
  let i1 := if IndexImageCatalogCreator.SkipTLS (Install.Creator i)
            then set_UseHTTP true i else i in
  Install.BundleImage i1 = Install.BundleImage i ∧
  IndexImageCatalogCreator.IndexImage (Install.Creator i1)
    = IndexImageCatalogCreator.IndexImage (Install.Creator i).
Proof. by destruct (IndexImageCatalogCreator.SkipTLS (Install.Creator i)). Qed.

(** X17. After a [setup] that succeeds, the installer and the catalog
    creator hold what the bundle says: both have the package of the labels
    of the bundle as their package name, the catalog source is named after
    that package, the starting CSV is the name of the CSV of the bundle, the
    supported install modes are those of the CSV, the catalog creator has
    the bundle image of the receiver, and the file of the catalog is
    [testFBC] in its directory. *)
Theorem X17_setup_success_fields (i i' : Install.t) :
  setup i = (i', Ok tt) →
  ∃ labels csv,
    LoadBundle (Install.BundleImage i)
      (IndexImageCatalogCreator.SkipTLSVerify (Install.Creator i))
      (IndexImageCatalogCreator.SkipTLS (Install.Creator i)
       || IndexImageCatalogCreator.UseHTTP (Install.Creator i))
      = Ok (labels, csv) ∧
    CheckCompatibility (OperatorInstaller.InstallMode (Install.Installer i))
      csv (Configuration.Namespace (Install.cfg i)) = None ∧
    OperatorInstaller.PackageName (Install.Installer i')
      = map_get labels PackageLabel ∧
    IndexImageCatalogCreator.PackageName (Install.Creator i')
      = OperatorInstaller.PackageName (Install.Installer i') ∧
    OperatorInstaller.CatalogSourceName (Install.Installer i')
      = CatalogNameForPackage (OperatorInstaller.PackageName (Install.Installer i')) ∧
    OperatorInstaller.StartingCSV (Install.Installer i')
      = ClusterServiceVersion.Name csv ∧
    OperatorInstaller.SupportedInstallModes (Install.Installer i')
      = GetSupportedInstallModes (ClusterServiceVersion.InstallModes csv) ∧
    IndexImageCatalogCreator.BundleImage (Install.Creator i')
      = Install.BundleImage i ∧
    IndexImageCatalogCreator.FBCfile (Install.Creator i')
      = filepath_Join [IndexImageCatalogCreator.FBCdir (Install.Creator i');
                       "testFBC"].
Proof.
  intros (i1 & l & d & Hl & _ & Hfin)%setup_inv_ok.
  destruct (setup_load_inv i i1 l Hl) as (_ & Hi1 & HL & HC & _ & Hfile).
  destruct (setup_finish_ok i1 i' l d Hfin)
    as (content & channel & _ & _ & _ & _ & _ & _ & _ & _ & _ & _
        & HcP & HcB & _ & Hdir & Hf & HoP & HoN & HoS & HoM & _).
  destruct (loaded_receiver_images i) as [HB _]. rewrite <- Hi1 in HB.
  exists (Locals.labels l), (Locals.csv l).
  rewrite HoP, HcP, HoN, HoS, HoM, HcB, Hf, Hdir, HB. by repeat split.
Qed.

(** X18. After a [setup] that succeeds, the channel of the installer is
    the first of the channels of the bundle: it holds no comma, and the
    channels label of the bundle is that channel, alone or followed by a
    comma and the other channels. *)
Theorem X18_setup_channel_is_first_channel (i i' : Install.t) :
  setup i = (i', Ok tt) →
  ∃ labels csv,
    LoadBundle (Install.BundleImage i)
      (IndexImageCatalogCreator.SkipTLSVerify (Install.Creator i))
      (IndexImageCatalogCreator.SkipTLS (Install.Creator i)
       || IndexImageCatalogCreator.UseHTTP (Install.Creator i))
      = Ok (labels, csv) ∧
    (∀ c, In c (list_ascii_of_string
                  (OperatorInstaller.Channel (Install.Installer i'))) →
          c ≠ ","%char) ∧
    (map_get labels ChannelsLabel
       = OperatorInstaller.Channel (Install.Installer i') ∨
     ∃ rest,
       map_get labels ChannelsLabel
         = OperatorInstaller.Channel (Install.Installer i')
           +:+ String ","%char rest).
Proof.
  intros (i1 & l & d & Hl & _ & Hfin)%setup_inv_ok.
  destruct (setup_load_inv i i1 l Hl) as (_ & _ & HL & _).
  destruct (setup_finish_ok i1 i' l d Hfin)
    as (content & channel & _ & Hch & _ & _ & _ & _ & _ & _ & _ & _
        & _ & _ & _ & _ & _ & _ & _ & _ & _ & ->).
  exists (Locals.labels l), (Locals.csv l). split; [done|].
  unfold index in Hch.
  destruct (strings_Split (map_get (Locals.labels l) ChannelsLabel) ",")
    as [|w ws] eqn:ES; [done|].
  simpl in Hch. injection Hch as <-.
  destruct (strings_Split_first _ _ _ _ ES) as [Hw Hs]. split; [done|].
  destruct Hs as [[_ Hs]|(rest & Hs & _)]; [by left|right; by exists rest].
Qed.

(** X19. After a [setup] that succeeds on the default index image, the
    content of the catalog is the text of a configuration with one package,
    made by [action.Init] for the package name and the channel of the
    installer; one channel of schema [olm.channel], with the channel and
    the package name of the installer and the starting CSV as its only
    entry, replacing and skipping nothing; and the one bundle that the
    render of the bundle image gave. *)
Theorem X19_minimal_catalog_matches_installer (i i' : Install.t) :
  setup i = (i', Ok tt) →
  IndexImageCatalogCreator.IndexImage (Install.Creator i) = DefaultIndexImage →
  ∃ cfg declcfg pkg b,
    Render_Run [Install.BundleImage i] = Ok declcfg ∧
    DeclarativeConfig.Bundles declcfg = [b] ∧
    Init_Run (OperatorInstaller.PackageName (Install.Installer i'))
             (OperatorInstaller.Channel (Install.Installer i')) None = Ok pkg ∧
    WriteJSON cfg
      = (IndexImageCatalogCreator.FBCcontent (Install.Creator i'), None) ∧
    DeclarativeConfig.Packages cfg = [pkg] ∧
    DeclarativeConfig.Bundles cfg = [b] ∧
    DeclarativeConfig.Channels cfg =
      [Channel.mk "olm.channel"
         (OperatorInstaller.Channel (Install.Installer i'))
         (OperatorInstaller.PackageName (Install.Installer i'))
         [ChannelEntry.mk (OperatorInstaller.StartingCSV (Install.Installer i'))
                          "" [] ""]].
Proof.
  intros (i1 & l & d & Hl & Hd & Hfin)%setup_inv_ok Hidx.
  destruct (setup_load_inv i i1 l Hl) as (_ & Hi1 & _).
  destruct (loaded_receiver_images i) as [HB HI]. rewrite <- Hi1 in HB, HI.
  destruct (setup_finish_ok i1 i' l d Hfin)
    as (content & channel & Hc & Hch & _ & _ & _ & _ & _ & _ & _ & _
        & _ & _ & Hcontent & _ & _ & HoP & _ & HoS & _ & HoC).
  destruct (setup_content_inv d content Hc) as (cfg & -> & _ & Hw & _).
  rewrite <- HI in Hidx.
  destruct (setup_declcfg_default i1 l Hidx) as (ch & Hch' & Heq).
  rewrite Hch in Hch'. injection Hch' as <-.
  rewrite Heq in Hd.
  destruct (createFBC_inv _ _ Hd) as (declcfg & b & pkg & Hr & HBs & Hinit & Hcfg).
  injection Hcfg as ->. simpl in Hr, Hinit.
  eexists _, declcfg, pkg, b.
  rewrite HoP, HoS, HoC, Hcontent, <- HB.
  split; [done|]. split; [done|]. split; [done|]. split; [exact Hw|].
  by repeat split.
Qed.

(** X20. After a [setup] that succeeds on an index image that is not the
    default one, the image has one of the two labels, both images rendered,
    and the content of the catalog is the text of the merge of the render
    of the bundle image into the render of the index image. *)
Theorem X20_merged_catalog_is_content (i i' : Install.t) :
  setup i = (i', Ok tt) →
  IndexImageCatalogCreator.IndexImage (Install.Creator i) ≠ DefaultIndexImage →
  ∃ catalogLabels t s r,
    GetImageLabels (IndexImageCatalogCreator.IndexImage (Install.Creator i))
      = Ok catalogLabels ∧
    (is_Some (catalogLabels !! DbLocationLabel)
     ∨ is_Some (catalogLabels !! ConfigsLocationLabel)) ∧
    Render_Run [IndexImageCatalogCreator.IndexImage (Install.Creator i)] = Ok t ∧
    Render_Run [Install.BundleImage i] = Ok s ∧
    mergeRendered t s = Ok (Some r) ∧
    WriteJSON r
      = (IndexImageCatalogCreator.FBCcontent (Install.Creator i'), None).
Proof.
  intros (i1 & l & d & Hl & Hd & Hfin)%setup_inv_ok Hidx.
  destruct (setup_load_inv i i1 l Hl) as (_ & Hi1 & _ & _ & Hlab & _).
  destruct (loaded_receiver_images i) as [HB HI]. rewrite <- Hi1 in HB, HI.
  destruct (setup_finish_ok i1 i' l d Hfin)
    as (content & channel & Hc & _ & _ & _ & _ & _ & _ & _ & _ & _
        & _ & _ & Hcontent & _).
  destruct (setup_content_inv d content Hc) as (cfg & -> & _ & Hw & _).
  rewrite <- HI in Hidx.
  destruct (map_has (Locals.catalogLabels l) DbLocationLabel
            || map_has (Locals.catalogLabels l) ConfigsLocationLabel) eqn:Hhas.
  - rewrite (setup_declcfg_labelled i1 l Hhas Hidx) in Hd.
    unfold addBundleToIndexImage in Hd. rewrite HI, HB in Hd.
    destruct (Render_Run [IndexImageCatalogCreator.IndexImage (Install.Creator i)])
      as [t| |] eqn:Ht; [|done..].
    destruct (Render_Run [Install.BundleImage i]) as [s| |] eqn:Hs; [|done..].
    simpl in Hd.
    exists (Locals.catalogLabels l), t, s, cfg. rewrite Hcontent.
    apply orb_true_iff in Hhas. rewrite !map_has_true in Hhas.
    by repeat split.
  - apply orb_false_elim in Hhas as [HDB HFBC].
    by rewrite (setup_declcfg_unlabelled i1 l HDB HFBC Hidx) in Hd.
Qed.

(** X24. [Run] returns a CSV only when [setup] succeeded and the
    installer returned that CSV on the receiver that [setup] left, whose
    catalog content is not empty and whose images are those [Run] was
    given. An error or a panic of [setup] is the result of [Run]. *)
Theorem X24_Run_installs_after_setup (i : Install.t) :
  (∀ csv, Run i = Ok csv →
     ∃ i', setup i = (i', Ok tt) ∧
           InstallOperator i' = Ok csv ∧
           IndexImageCatalogCreator.FBCcontent (Install.Creator i') ≠ "" ∧
           IndexImageCatalogCreator.IndexImage (Install.Creator i')
             = IndexImageCatalogCreator.IndexImage (Install.Creator i) ∧
           IndexImageCatalogCreator.BundleImage (Install.Creator i')
             = Install.BundleImage i) ∧
  (∀ e, snd (setup i) = Err e → Run i = Err e) ∧
  (∀ p, snd (setup i) = Panic p → Run i = Panic p).
Proof.
  unfold Run. destruct (setup i) as [i' [[]|e|p]] eqn:Hs; simpl.
  - split; [|by split].
    intros csv Hinst. exists i'. split; [done|]. split; [done|].
    destruct (setup_inv_ok i i' Hs) as (i1 & l & d & Hl & _ & Hfin).
    destruct (setup_load_inv i i1 l Hl) as (_ & Hi1 & _).
    destruct (loaded_receiver_images i) as [HB HI]. rewrite <- Hi1 in HB, HI.
    destruct (setup_finish_ok i1 i' l d Hfin)
      as (content & channel & Hc & _ & _ & _ & _ & _ & _ & -> & _ & _
          & _ & -> & -> & _).
    split; [by eapply setup_content_nonempty|]. by split.
  - split; [done|]. split; [by intros ? [= <-]|done].
  - split; [done|]. split; [done|by intros ? [= <-]].
Qed.

End SuccessProperties.

(** ** The further properties at concrete catalogs *)

Section FurtherExamples.

Import Demo.

Lemma X1_merge_present_package_unchanged_witness :
  mergeRendered barFooCatalog fooTwoBundles = Ok (Some barFooCatalog).
Proof.
  apply (X1_merge_present_package_unchanged barFooCatalog fooTwoBundles pkgFoo []).
  - reflexivity.
  - apply list_elem_of_In. simpl. tauto.
Defined.

Lemma X2_merge_failure_surface_witness :
  mergeRendered barCatalog fooNoPackage = Panic IndexOutOfRange.
Proof.
  apply (proj2 (proj2 (X2_merge_failure_surface barCatalog fooNoPackage))
           IndexOutOfRange).
  repeat split; discriminate.
Defined.

Lemma X3_merge_keeps_index_witness :
  DeclarativeConfig.Packages barCatalog
    `prefix_of` DeclarativeConfig.Packages barFooCatalog ∧
  DeclarativeConfig.Channels barCatalog
    `prefix_of` DeclarativeConfig.Channels barFooCatalog ∧
  DeclarativeConfig.Bundles barCatalog
    `prefix_of` DeclarativeConfig.Bundles barFooCatalog ∧
  DeclarativeConfig.Others barCatalog
    `prefix_of` DeclarativeConfig.Others barFooCatalog ∧
  (length (DeclarativeConfig.Packages barFooCatalog)
     ≤ S (length (DeclarativeConfig.Packages barCatalog)))%nat ∧
  (length (DeclarativeConfig.Channels barFooCatalog)
     ≤ S (length (DeclarativeConfig.Channels barCatalog)))%nat ∧
  (length (DeclarativeConfig.Bundles barFooCatalog)
     ≤ S (length (DeclarativeConfig.Bundles barCatalog)))%nat ∧
  (length (DeclarativeConfig.Others barFooCatalog)
     ≤ S (length (DeclarativeConfig.Others barCatalog)))%nat.
Proof.
  apply (X3_merge_keeps_index barCatalog fooRender barFooCatalog).
  vm_compute; reflexivity.
Defined.

Lemma X4_merge_all_or_nothing_witness :
  barFooCatalog = barCatalog ∨
  (∃ p0 b0 c0,
     DeclarativeConfig.Packages fooRender !! 0%nat = Some p0 ∧
     DeclarativeConfig.Bundles fooRender !! 0%nat = Some b0 ∧
     DeclarativeConfig.Channels fooRender !! 0%nat = Some c0 ∧
     (p0 ∉ DeclarativeConfig.Packages barCatalog) ∧
     DeclarativeConfig.Packages barFooCatalog
       = DeclarativeConfig.Packages barCatalog ++ [p0] ∧
     DeclarativeConfig.Bundles barFooCatalog
       = DeclarativeConfig.Bundles barCatalog ++ [b0] ∧
     DeclarativeConfig.Channels barFooCatalog
       = DeclarativeConfig.Channels barCatalog ++ [c0] ∧
     DeclarativeConfig.Others barFooCatalog
       = DeclarativeConfig.Others barCatalog
         ++ take 1 (DeclarativeConfig.Others fooRender)).
Proof.
  apply (X4_merge_all_or_nothing barCatalog fooRender barFooCatalog).
  vm_compute; reflexivity.
Defined.

Lemma X6_merge_keeps_packages_distinct_witness :
  NoDup (DeclarativeConfig.Packages barFooCatalog).
Proof.
  apply (X6_merge_keeps_packages_distinct barCatalog fooRender barFooCatalog).
  - apply NoDup_singleton.
  - vm_compute; reflexivity.
Defined.

Lemma X7_addBundleToIndexImage_render_errors_witness :
  @addBundleToIndexImage mergeEnv missingRef bundleRef
    = Err "render: image not found" ∧
  @addBundleToIndexImage mergeEnv indexRef missingRef
    = Err "render: image not found".
Proof.
  split.
  - apply (proj1 (@X7_addBundleToIndexImage_render_errors mergeEnv
                    missingRef bundleRef)).
    vm_compute; reflexivity.
  - apply (proj2 (@X7_addBundleToIndexImage_render_errors mergeEnv
                    indexRef missingRef) barCatalog).
    + vm_compute; reflexivity.
    + vm_compute; reflexivity.
Defined.

Lemma X8_createFBC_requires_one_bundle_witness :
  @createFBC twoBundlesEnv (fbcContext bundleRef "foo" "stable")
    = Err "error in expected length of bundles".
Proof.
  apply (@X8_createFBC_requires_one_bundle twoBundlesEnv
           (fbcContext bundleRef "foo" "stable") fooTwoBundles).
  - vm_compute; reflexivity.
  - simpl. lia.
Defined.

Lemma X9_createFBC_collaborator_errors_witness :
  @createFBC strictEnv (fbcContext missingRef "foo" "stable")
    = Err "render: image not found" ∧
  @createFBC strictEnv (fbcContext bundleRef "" "stable")
    = Err "package name must be set".
Proof.
  split.
  - apply (proj1 (@X9_createFBC_collaborator_errors strictEnv
                    (fbcContext missingRef "foo" "stable"))).
    vm_compute; reflexivity.
  - apply (proj2 (@X9_createFBC_collaborator_errors strictEnv
                    (fbcContext bundleRef "" "stable")) fooRender bundleFoo).
    + vm_compute; reflexivity.
    + reflexivity.
    + vm_compute; reflexivity.
Defined.

Lemma X10_createFBC_shape_witness :
  ∃ cfg declcfg b pkg c,
    Some fooMinimalCatalog = Some cfg ∧
    @Render_Run minimalEnv [bundleRef] = Ok declcfg ∧
    DeclarativeConfig.Bundles declcfg = [b] ∧
    @Init_Run minimalEnv "foo" "stable" None = Ok pkg ∧
    DeclarativeConfig.Packages cfg = [pkg] ∧
    DeclarativeConfig.Channels cfg = [c] ∧
    Channel.Schema c = "olm.channel" ∧
    Channel.Name c = "stable" ∧
    Channel.Package c = "foo" ∧
    Channel.Entries c = [entryFoo] ∧
    DeclarativeConfig.Bundles cfg = [b] ∧
    DeclarativeConfig.Others cfg = DeclarativeConfig.Others declcfg.
Proof.
  apply (@X10_createFBC_shape minimalEnv (fbcContext bundleRef "foo" "stable")
           (Some fooMinimalCatalog)).
  vm_compute; reflexivity.
Defined.

Lemma X11_createFBC_reads_witness :
  @createFBC minimalEnv (fbcContext bundleRef "foo" "candidate")
    = @createFBC minimalEnv (fbcContext bundleRef "foo" "stable") ∧
  @createFBC minimalEnv (fbcContext bundleRef "foo" "candidate")
    = Ok (Some fooMinimalCatalog) ∧
  Package.DefaultChannel pkgFoo = "stable".
Proof.
  split; [|split].
  - apply (proj1 (@X11_createFBC_reads minimalEnv
                    (fbcContext bundleRef "foo" "candidate"))); reflexivity.
  - apply (proj2 (@X11_createFBC_reads minimalEnv
                    (fbcContext bundleRef "foo" "candidate"))
             fooBundleOnly bundleFoo).
    + vm_compute; reflexivity.
    + reflexivity.
  - reflexivity.
Defined.

Lemma X12_declcfg_nil_exactly_when_unlabelled_witness :
  @setup_declcfg unlabelledEnv (install indexRef) (locals ∅) = Ok None.
Proof.
  apply (proj2 (@X12_declcfg_nil_exactly_when_unlabelled unlabelledEnv
                  (install indexRef) (locals ∅))).
  split; [discriminate|]. split; reflexivity.
Defined.

Lemma X13_default_index_ignores_labels_witness :
  @setup_declcfg labelledDefaultEnv (install defaultIndexImage) (locals ∅)
    = @setup_declcfg labelledDefaultEnv (install defaultIndexImage)
        (locals {[ configsLocationLabel := "/configs" ]}).
Proof.
  apply (@X13_default_index_ignores_labels labelledDefaultEnv
           (install defaultIndexImage) (locals ∅)
           {[ configsLocationLabel := "/configs" ]}).
  reflexivity.
Defined.

Lemma X14_setup_failure_keeps_receiver_witness :
  fst (@setup unlabelledEnv (install indexRef)) = install indexRef ∨
  (IndexImageCatalogCreator.SkipTLS (Install.Creator (install indexRef)) = true ∧
   fst (@setup unlabelledEnv (install indexRef))
     = set_UseHTTP true (install indexRef)).
Proof.
  apply (@X14_setup_failure_keeps_receiver unlabelledEnv (install indexRef)).
  vm_compute. discriminate.
Defined.

Lemma X16_skipTLS_sets_useHTTP_witness :
  IndexImageCatalogCreator.UseHTTP
    (Install.Creator
       (fst (@setup mergeEnv
               (installWith bundleRef indexRef "" true "AllNamespaces"))))
    = true.
Proof.
  apply (@X16_skipTLS_sets_useHTTP mergeEnv
           (installWith bundleRef indexRef "" true "AllNamespaces")).
  left. reflexivity.
Defined.

Lemma X21_setup_loading_errors_witness :
  snd (@setup strictEnv (installWith missingRef indexRef "" false "AllNamespaces"))
    = Err "load bundle: image not found" ∧
  snd (@setup strictEnv (installWith bundleRef indexRef "" false "OwnNamespace"))
    = Err "install mode not supported by the operator" ∧
  snd (@setup strictEnv (installWith bundleRef missingRef "" false "AllNamespaces"))
    = Err "get index image labels: image not found".
Proof.
  split; [|split].
  - apply (proj1 (@X21_setup_loading_errors strictEnv
                    (installWith missingRef indexRef "" false "AllNamespaces")
                    (or_introl eq_refl))).
    vm_compute; reflexivity.
  - apply (proj1 (proj2 (@X21_setup_loading_errors strictEnv
                    (installWith bundleRef indexRef "" false "OwnNamespace")
                    (or_introl eq_refl))) bundleLabels csvFoo).
    + vm_compute; reflexivity.
    + vm_compute; reflexivity.
  - apply (proj2 (proj2 (@X21_setup_loading_errors strictEnv
                    (installWith bundleRef missingRef "" false "AllNamespaces")
                    (or_introl eq_refl))) bundleLabels csvFoo).
    + vm_compute; reflexivity.
    + vm_compute; reflexivity.
    + vm_compute; reflexivity.
Defined.

Lemma X22_invalid_add_mode_first_witness :
  @setup strictEnv (installWith bundleRef indexRef "bogus" true "AllNamespaces")
    = (installWith bundleRef indexRef "bogus" true "AllNamespaces",
       Err "invalid bundle add mode: bogus") ∧
  @Run strictEnv (installWith bundleRef indexRef "bogus" true "AllNamespaces")
    = Err "invalid bundle add mode: bogus".
Proof.
  apply (@X22_invalid_add_mode_first strictEnv
           (installWith bundleRef indexRef "bogus" true "AllNamespaces")).
  - discriminate.
  - vm_compute; reflexivity.
Defined.

Lemma X23_accepted_content_witness :
  @setup_content minimalEnv (Some fooMinimalCatalog)
    = Ok (fst (writeJSON fooMinimalCatalog)).
Proof.
  apply (proj2 (@X23_accepted_content minimalEnv fooMinimalCatalog
                  (fst (writeJSON fooMinimalCatalog)))).
  exists fooMinimalCatalog. repeat split. vm_compute. discriminate.
Defined.

Lemma X17_setup_success_fields_witness :
  ∃ labels csv,
    @LoadBundle mergeEnv bundleRef false false = Ok (labels, csv) ∧
    @CheckCompatibility mergeEnv (InstallMode.mk "AllNamespaces" []) csv "default"
      = None ∧
    OperatorInstaller.PackageName (Install.Installer mergeInstalled)
      = map_get labels packageLabel ∧
    IndexImageCatalogCreator.PackageName (Install.Creator mergeInstalled)
      = OperatorInstaller.PackageName (Install.Installer mergeInstalled) ∧
    OperatorInstaller.CatalogSourceName (Install.Installer mergeInstalled)
      = @CatalogNameForPackage mergeEnv
          (OperatorInstaller.PackageName (Install.Installer mergeInstalled)) ∧
    OperatorInstaller.StartingCSV (Install.Installer mergeInstalled)
      = ClusterServiceVersion.Name csv ∧
    OperatorInstaller.SupportedInstallModes (Install.Installer mergeInstalled)
      = @GetSupportedInstallModes mergeEnv (ClusterServiceVersion.InstallModes csv) ∧
    IndexImageCatalogCreator.BundleImage (Install.Creator mergeInstalled)
      = bundleRef ∧
    IndexImageCatalogCreator.FBCfile (Install.Creator mergeInstalled)
      = @filepath_Join mergeEnv
          [IndexImageCatalogCreator.FBCdir (Install.Creator mergeInstalled);
           "testFBC"].
Proof.
  apply (@X17_setup_success_fields mergeEnv (install indexRef) mergeInstalled).
  vm_compute; reflexivity.
Defined.

Lemma X18_setup_channel_is_first_channel_witness :
  ∃ labels csv,
    @LoadBundle mergeEnv bundleRef false false = Ok (labels, csv) ∧
    (∀ c, In c (list_ascii_of_string
                  (OperatorInstaller.Channel (Install.Installer mergeInstalled))) →
          c ≠ ","%char) ∧
    (map_get labels channelsLabel
       = OperatorInstaller.Channel (Install.Installer mergeInstalled) ∨
     ∃ rest,
       map_get labels channelsLabel
         = OperatorInstaller.Channel (Install.Installer mergeInstalled)
           +:+ String ","%char rest).
Proof.
  apply (@X18_setup_channel_is_first_channel mergeEnv (install indexRef)
           mergeInstalled).
  vm_compute; reflexivity.
Defined.

Lemma X19_minimal_catalog_matches_installer_witness :
  ∃ cfg declcfg pkg b,
    @Render_Run minimalEnv [bundleRef] = Ok declcfg ∧
    DeclarativeConfig.Bundles declcfg = [b] ∧
    @Init_Run minimalEnv
      (OperatorInstaller.PackageName (Install.Installer minimalInstalled))
      (OperatorInstaller.Channel (Install.Installer minimalInstalled)) None
      = Ok pkg ∧
    writeJSON cfg
      = (IndexImageCatalogCreator.FBCcontent (Install.Creator minimalInstalled),
         None) ∧
    DeclarativeConfig.Packages cfg = [pkg] ∧
    DeclarativeConfig.Bundles cfg = [b] ∧
    DeclarativeConfig.Channels cfg =
      [Channel.mk "olm.channel"
         (OperatorInstaller.Channel (Install.Installer minimalInstalled))
         (OperatorInstaller.PackageName (Install.Installer minimalInstalled))
         [ChannelEntry.mk
            (OperatorInstaller.StartingCSV (Install.Installer minimalInstalled))
            "" [] ""]].
Proof.
  apply (@X19_minimal_catalog_matches_installer minimalEnv
           (install defaultIndexImage) minimalInstalled).
  - vm_compute; reflexivity.
  - reflexivity.
Defined.

Lemma X20_merged_catalog_is_content_witness :
  ∃ catalogLabels t s r,
    @GetImageLabels mergeEnv indexRef = Ok catalogLabels ∧
    (is_Some (catalogLabels !! dbLocationLabel)
     ∨ is_Some (catalogLabels !! configsLocationLabel)) ∧
    @Render_Run mergeEnv [indexRef] = Ok t ∧
    @Render_Run mergeEnv [bundleRef] = Ok s ∧
    mergeRendered t s = Ok (Some r) ∧
    writeJSON r
      = (IndexImageCatalogCreator.FBCcontent (Install.Creator mergeInstalled),
         None).
Proof.
  apply (@X20_merged_catalog_is_content mergeEnv (install indexRef)
           mergeInstalled).
  - vm_compute; reflexivity.
  - discriminate.
Defined.

Lemma X24_Run_installs_after_setup_witness :
  ∃ i', @setup mergeEnv (install indexRef) = (i', Ok tt) ∧
        @InstallOperator mergeEnv i'
          = Ok (ClusterServiceVersion.mk "foo.v1.0.0" []) ∧
        IndexImageCatalogCreator.FBCcontent (Install.Creator i') ≠ "" ∧
        IndexImageCatalogCreator.IndexImage (Install.Creator i') = indexRef ∧
        IndexImageCatalogCreator.BundleImage (Install.Creator i') = bundleRef.
Proof.
  apply (proj1 (@X24_Run_installs_after_setup mergeEnv (install indexRef))
           (ClusterServiceVersion.mk "foo.v1.0.0" [])).
  vm_compute; reflexivity.
Defined.

End FurtherExamples.
